(** * Verso storefront: pricing, coupons, orders, checkout and roles

    A shallow embedding of the business rules of the Verso Django
    application ([products/models.py], [orders/models.py],
    [orders/views.py], [accounts/models.py]) together with the properties
    its specification states about them.

    Conventions of the embedding:
    - a Python [Decimal] is the rational number it denotes ([Q], compared
      with [==]).  Dividing by [100] only shifts the exponent, and with the
      declared column widths ([max_digits=10], [decimal_places=2]) every
      product and difference below has fewer than 28 significant digits, so
      the default decimal context never rounds;
    - [CharField]s are strings, nullable columns are [option]s, a
      [DateTimeField] is a point in time counted in [Z];
    - Python dictionaries are finite maps ([gmap]);
    - a model method that writes to its instance returns the new instance;
      the database is an explicit record of tables threaded through the
      views. *)

From Stdlib Require Import ZArith QArith Qminmax Lqa Lia Ascii String.
From stdpp Require Import base option strings list gmap.

Set Default Proof Using "Type".

(** ** Decimal arithmetic and Python's builtin comparisons *)

Module Decimal.
Local Open Scope Q_scope.

Definition t : Type := Q.

(** [a < b], [a > b], [a >= b] on numbers, as booleans. *)
Definition lt (a b : t) : bool := negb (Qle_bool b a).
Definition gt (a b : t) : bool := lt b a.
Definition ge (a b : t) : bool := Qle_bool b a.

(** [max(a, b)] keeps its first argument unless the second is strictly
    greater; [min(a, b)] keeps it unless the second is strictly smaller. *)
Definition py_max (a b : t) : t := if gt b a then b else a.
Definition py_min (a b : t) : t := if lt b a then b else a.

(** [sum(xs)] starts from the integer [0]. *)
Definition py_sum (xs : list t) : t := foldl Qplus 0 xs.
End Decimal.

(** ** products/models.py *)

Module Products.
Local Open Scope Q_scope.
Import Decimal.

Record Product := {
  product_id : N;
  name : string;
  sku : string;
  base_price : Decimal.t;
  discount_percentage : Decimal.t;
  discount_amount : Decimal.t;
  total_stock : Z;
  sales_count : Z;
}.

(** [Product.current_price] *)
Definition current_price (self : Product) : Decimal.t :=
  if gt (discount_percentage self) 0 then
    base_price self * (1 - discount_percentage self / 100)
  else if gt (discount_amount self) 0 then
    py_max (base_price self - discount_amount self) 0
  else base_price self.

(** [Product.savings], [Product.is_on_sale] *)
Definition savings (self : Product) : Decimal.t :=
  base_price self - current_price self.

Definition is_on_sale (self : Product) : bool :=
  gt (discount_percentage self) 0 || gt (discount_amount self) 0.

(** A variant as the ORM hands it out: [product] is the related
    [Product] instance. *)
Record ProductVariant := {
  variant_id : N;
  product : Product;
  size : string;
  color : string;
  stock : Z;
  additional_price : Decimal.t;
}.

(** [ProductVariant.price], [ProductVariant.is_available] *)
Definition price (self : ProductVariant) : Decimal.t :=
  current_price (product self) + additional_price self.

Definition is_available (self : ProductVariant) : bool :=
  bool_decide (0 < stock self)%Z.
End Products.

(** ** Python string helpers *)

Module PyStr.
(** ASCII whitespace removed by [str.strip()]; strings are taken to be
    ASCII (Python strips Unicode whitespace as well). *)
Definition is_space (c : ascii) : bool :=
  let n := N_of_ascii c in
  ((9 <=? n) && (n <=? 13) || (28 <=? n) && (n <=? 32))%N.

Fixpoint lstrip (s : string) : string :=
  match s with
  | String c s' => if is_space c then lstrip s' else s
  | EmptyString => EmptyString
  end.

Definition rstrip (s : string) : string :=
  String.rev (lstrip (String.rev s)).

Definition strip (s : string) : string := rstrip (lstrip s).

(** [a or b] on strings: the empty string is falsy. *)
Definition or_else (a b : string) : string :=
  match a with EmptyString => b | _ => a end.
End PyStr.

(** ** accounts/models.py *)

Module Accounts.
Local Open Scope string_scope.

Record User := {
  id : N;
  username : string;
  first_name : string;
  last_name : string;
  email : string;
  phone_number : string;
  address : string;
  city : string;
  state : string;
  country : string;
  postal_code : string;
  role : string;
  is_staff : bool;
  is_superuser : bool;
}.

Definition set_role (r : string) (u : User) : User :=
  {| id := id u; username := username u; first_name := first_name u;
     last_name := last_name u; email := email u;
     phone_number := phone_number u; address := address u; city := city u;
     state := state u; country := country u; postal_code := postal_code u;
     role := r; is_staff := is_staff u; is_superuser := is_superuser u |}.

Definition set_is_staff (b : bool) (u : User) : User :=
  {| id := id u; username := username u; first_name := first_name u;
     last_name := last_name u; email := email u;
     phone_number := phone_number u; address := address u; city := city u;
     state := state u; country := country u; postal_code := postal_code u;
     role := role u; is_staff := b; is_superuser := is_superuser u |}.

Definition set_is_superuser (b : bool) (u : User) : User :=
  {| id := id u; username := username u; first_name := first_name u;
     last_name := last_name u; email := email u;
     phone_number := phone_number u; address := address u; city := city u;
     state := state u; country := country u; postal_code := postal_code u;
     role := role u; is_staff := is_staff u; is_superuser := b |}.

(** Properties of [User]. *)
Definition full_name (self : User) : string :=
  PyStr.or_else (PyStr.strip (first_name self ++ " " ++ last_name self))
                (username self).

Definition is_staff_member (self : User) : bool :=
  bool_decide (role self ∈ ["admin"; "manager"; "employee"]).

Definition is_admin (self : User) : bool := bool_decide (role self = "admin").
Definition is_manager (self : User) : bool := bool_decide (role self = "manager").
Definition is_employee (self : User) : bool := bool_decide (role self = "employee").
Definition is_customer (self : User) : bool := bool_decide (role self = "customer").

(** The dictionary literal of [has_perm]. *)
Definition permission_matrix : gmap string (list string) :=
  list_to_map
    [ ("manager",
        [ "products.add_product"; "products.change_product";
          "products.view_product"; "orders.view_order";
          "orders.change_order"; "accounts.view_user";
          "accounts.add_user" ]);
      ("employee",
        [ "products.view_product"; "orders.view_order";
          "orders.change_order"; "accounts.view_user" ]);
      ("customer",
        [ "orders.add_order"; "orders.view_order" ]) ].

(** The dictionary literal of [can_delete_user]. *)
Definition role_hierarchy : gmap string Z :=
  list_to_map
    [ ("customer", 0%Z); ("employee", 1%Z); ("manager", 2%Z); ("admin", 3%Z) ].

(** [d.get(k, 0)] *)
Definition rank (r : string) : Z := default 0%Z (role_hierarchy !! r).

Section HasPerm.
(** [super().has_perm(perm, obj)]: Django's own permission backends,
    reached only for a role outside the matrix. *)
Variable django_has_perm : User -> string -> bool.

Definition has_perm (self : User) (perm : string) : bool :=
  if is_superuser self || is_admin self then true
  else match permission_matrix !! role self with
       | Some perms => bool_decide (perm ∈ perms)
       | None => django_has_perm self perm
       end.
End HasPerm.

Definition can_delete_user (self target_user : User) : bool :=
  if negb (is_staff_member self) then false
  else if is_admin target_user && negb (is_superuser self) then false
  else if bool_decide (rank (role target_user) >= rank (role self))%Z then false
  else true.

Definition can_edit_user (self target_user : User) : bool :=
  if negb (is_staff_member self) then false
  else if bool_decide (id self = id target_user) then true
  else can_delete_user self target_user.

(** [User.save]: the instance as it is written to the database.  The
    [auto_now] column [updated_at], which every save sets to the clock,
    is not a field of the record. *)
Definition save (self : User) : User :=
  let self :=
    if bool_decide (role self ∈ ["admin"; "manager"; "employee"])
    then set_is_staff true self
    else set_is_staff false self in
  let self :=
    if bool_decide (role self = "admin")
    then set_is_superuser true self
    else self in
  self.

(** A history of one account: the role is reassigned, then the
    instance is saved, any number of times. *)
Definition assign_and_save (u : User) (r : string) : User :=
  save (set_role r u).

Definition saves (u : User) (roles : list string) : User :=
  foldl assign_and_save u roles.
End Accounts.

(** ** orders/models.py *)

Module Orders.
Import Decimal Products.
Local Open Scope Q_scope.
Local Open Scope string_scope.

(** [generate_order_number]: prefix, date stamp ([%Y%m%d]) and four
    random characters; the stamp and the random characters are inputs. *)
Definition generate_order_number (datestamp random_str : string) : string :=
  "VSO" ++ datestamp ++ random_str.

(** *** CartItem *)

Record CartItem := {
  item_product : Product;
  item_variant : option ProductVariant;
  quantity : Z;
}.

Definition unit_price (self : CartItem) : Decimal.t :=
  match item_variant self with
  | Some v => price v
  | None => current_price (item_product self)
  end.

Definition total_price (self : CartItem) : Decimal.t :=
  unit_price self * inject_Z (quantity self).

Definition item_is_available (self : CartItem) : bool :=
  match item_variant self with
  | Some v => bool_decide (stock v >= quantity self)%Z
  | None => bool_decide (total_stock (item_product self) >= quantity self)%Z
  end.

(** *** Cart: [items] is the result of [self.items.all()]. *)

Record Cart := {
  cart_id : N;
  cart_user : option N;
  session_key : option string;
  items : list CartItem;
}.

Definition total_items (self : Cart) : Z :=
  foldl Z.add 0%Z (quantity <$> items self).

Definition subtotal (self : Cart) : Decimal.t :=
  py_sum (total_price <$> items self).

Definition tax (self : Cart) : Decimal.t :=
  subtotal self * (1 # 10).

Definition shipping (self : Cart) : Decimal.t :=
  if ge (subtotal self) 50 then 0 else 5.

Definition total (self : Cart) : Decimal.t :=
  subtotal self + tax self + shipping self.

(** *** Order: the snapshot columns are grouped as in the source. *)

Record CustomerInfo := {
  customer_name : string;
  customer_email : string;
  customer_phone : string;
}.

Record ShippingAddress := {
  shipping_address : string;
  shipping_city : string;
  shipping_state : string;
  shipping_country : string;
  shipping_postal_code : string;
}.

Record Pricing := {
  order_subtotal : Decimal.t;
  order_tax : Decimal.t;
  order_shipping : Decimal.t;
  order_discount : Decimal.t;
  order_total : Decimal.t;
}.

Record Order := {
  order_id : N;
  order_number : string;
  order_user : option N;
  customer : CustomerInfo;
  ship_to : ShippingAddress;
  status : string;
  payment_method : string;
  payment_status : string;
  pricing : Pricing;
  customer_notes : string;
  paid_at : option Z;
  shipped_at : option Z;
  delivered_at : option Z;
  cancelled_at : option Z;
}.

Definition set_order_number (n : string) (o : Order) : Order :=
  {| order_id := order_id o; order_number := n; order_user := order_user o;
     customer := customer o; ship_to := ship_to o; status := status o;
     payment_method := payment_method o; payment_status := payment_status o;
     pricing := pricing o; customer_notes := customer_notes o;
     paid_at := paid_at o; shipped_at := shipped_at o;
     delivered_at := delivered_at o; cancelled_at := cancelled_at o |}.

Definition set_status (s : string) (o : Order) : Order :=
  {| order_id := order_id o; order_number := order_number o;
     order_user := order_user o;
     customer := customer o; ship_to := ship_to o; status := s;
     payment_method := payment_method o; payment_status := payment_status o;
     pricing := pricing o; customer_notes := customer_notes o;
     paid_at := paid_at o; shipped_at := shipped_at o;
     delivered_at := delivered_at o; cancelled_at := cancelled_at o |}.

Definition set_paid_at (t : option Z) (o : Order) : Order :=
  {| order_id := order_id o; order_number := order_number o;
     order_user := order_user o;
     customer := customer o; ship_to := ship_to o; status := status o;
     payment_method := payment_method o; payment_status := payment_status o;
     pricing := pricing o; customer_notes := customer_notes o;
     paid_at := t; shipped_at := shipped_at o;
     delivered_at := delivered_at o; cancelled_at := cancelled_at o |}.

Definition set_shipped_at (t : option Z) (o : Order) : Order :=
  {| order_id := order_id o; order_number := order_number o;
     order_user := order_user o;
     customer := customer o; ship_to := ship_to o; status := status o;
     payment_method := payment_method o; payment_status := payment_status o;
     pricing := pricing o; customer_notes := customer_notes o;
     paid_at := paid_at o; shipped_at := t;
     delivered_at := delivered_at o; cancelled_at := cancelled_at o |}.

Definition set_delivered_at (t : option Z) (o : Order) : Order :=
  {| order_id := order_id o; order_number := order_number o;
     order_user := order_user o;
     customer := customer o; ship_to := ship_to o; status := status o;
     payment_method := payment_method o; payment_status := payment_status o;
     pricing := pricing o; customer_notes := customer_notes o;
     paid_at := paid_at o; shipped_at := shipped_at o;
     delivered_at := t; cancelled_at := cancelled_at o |}.

Definition set_cancelled_at (t : option Z) (o : Order) : Order :=
  {| order_id := order_id o; order_number := order_number o;
     order_user := order_user o;
     customer := customer o; ship_to := ship_to o; status := status o;
     payment_method := payment_method o; payment_status := payment_status o;
     pricing := pricing o; customer_notes := customer_notes o;
     paid_at := paid_at o; shipped_at := shipped_at o;
     delivered_at := delivered_at o; cancelled_at := t |}.

(** [not x] for a string and for a nullable timestamp. *)
Definition str_falsy (s : string) : bool :=
  match s with EmptyString => true | _ => false end.

Definition unset (t : option Z) : bool :=
  match t with None => true | Some _ => false end.

(** [Order.save]: [now] is the value of [timezone.now()] and
    [fresh_number] the result [generate_order_number()] would give;
    the result is the instance written to the database.  The
    [auto_now] column [updated_at], which every save sets to the clock,
    is not a field of the record. *)
Definition save (now : Z) (fresh_number : string) (self : Order) : Order :=
  let self :=
    if str_falsy (order_number self)
    then set_order_number fresh_number self else self in
  if bool_decide (status self = "paid") && unset (paid_at self) then
    set_paid_at (Some now) self
  else if bool_decide (status self = "shipped") && unset (shipped_at self) then
    set_shipped_at (Some now) self
  else if bool_decide (status self = "delivered") && unset (delivered_at self) then
    set_delivered_at (Some now) self
  else if bool_decide (status self = "cancelled") && unset (cancelled_at self) then
    set_cancelled_at (Some now) self
  else self.

Definition can_cancel (self : Order) : bool :=
  bool_decide (status self ∈ ["pending"; "processing"; "paid"]).

Definition can_refund (self : Order) : bool :=
  bool_decide (status self ∈ ["paid"; "shipped"; "delivered"]).

(** A history of one order: a caller assigns [status] and calls
    [save], at the given time, any number of times. *)
Record SaveEvent := {
  ev_status : string;
  ev_now : Z;
  ev_number : string;
}.

Definition assign_and_save (o : Order) (e : SaveEvent) : Order :=
  save (ev_now e) (ev_number e) (set_status (ev_status e) o).

Definition saves (o : Order) (es : list SaveEvent) : Order :=
  foldl assign_and_save o es.

(** *** OrderItem *)

Record OrderItem := {
  oi_order : N;
  oi_product : option N;
  oi_variant : option N;
  product_name : string;
  product_sku : string;
  oi_size : string;
  oi_color : string;
  oi_unit_price : Decimal.t;
  oi_quantity : Z;
  oi_discount_amount : Decimal.t;
}.

Definition order_item_total_price (self : OrderItem) : Decimal.t :=
  oi_unit_price self * inject_Z (oi_quantity self) - oi_discount_amount self.

(** *** Coupon *)

Record Coupon := {
  code : string;
  discount_type : string;
  discount_value : Decimal.t;
  minimum_purchase : Decimal.t;
  usage_limit : option Z;
  usage_count : Z;
  valid_from : Z;
  valid_to : Z;
  is_active : bool;
  applicable_categories : list N;
  applicable_products : list N;
  applicable_users : list N;
}.

(** Truth value of a nullable integer: [None] and [0] are falsy. *)
Definition int_truthy (x : option Z) : bool :=
  match x with
  | None => false
  | Some n => negb (n =? 0)%Z
  end.

(** [x >= limit] where [limit] is known to be truthy when evaluated. *)
Definition reaches (x : Z) (limit : option Z) : bool :=
  match limit with
  | None => false
  | Some l => (l <=? x)%Z
  end.

(** [Coupon.is_valid]; [now] is the value of [timezone.now()]. *)
Definition is_valid (now : Z) (self : Coupon) : bool :=
  if negb (is_active self) then false
  else if (now <? valid_from self)%Z || (valid_to self <? now)%Z then false
  else if int_truthy (usage_limit self)
          && reaches (usage_count self) (usage_limit self) then false
  else true.

(** [Coupon.calculate_discount] *)
Definition calculate_discount (self : Coupon) (subtotal : Decimal.t)
  : Decimal.t :=
  if lt subtotal (minimum_purchase self) then 0
  else if bool_decide (discount_type self = "percentage") then
    subtotal * (discount_value self / 100)
  else py_min (discount_value self) subtotal.
End Orders.

(** ** orders/views.py: the database and [CheckoutView.post] *)

Module Views.
Import Decimal Products Orders.
Local Open Scope string_scope.

(** Exceptions the ORM can raise while following a foreign key. *)
Inductive Exn := DoesNotExist (model : string).

Inductive result (A : Type) : Type :=
| Ok (a : A)
| Raise (e : Exn).
Arguments Ok {A} a.
Arguments Raise {A} e.

#[global] Instance result_ret : MRet result := fun A a => Ok a.
#[global] Instance result_bind : MBind result := fun A B f m =>
  match m with
  | Ok a => f a
  | Raise e => Raise e
  end.

#[global] Instance result_fmap : FMap result := fun A B f m =>
  match m with
  | Ok a => Ok (f a)
  | Raise e => Raise e
  end.

Definition from_option {A : Type} (model : string) (x : option A) : result A :=
  match x with
  | Some a => Ok a
  | None => Raise (DoesNotExist model)
  end.

(** Rows whose foreign keys matter for sharing are stored with the key
    of the row they point to. *)
Record VariantRow := {
  vr_product : N;
  vr_size : string;
  vr_color : string;
  vr_stock : Z;
  vr_additional_price : Decimal.t;
}.

Record CartRow := {
  cr_id : N;
  cr_user : option N;
  cr_session_key : option string;
}.

Record CartItemRow := {
  cir_cart : N;
  cir_product : N;
  cir_variant : option N;
  cir_quantity : Z;
}.

(** Tables with a primary key that is looked up are maps from the key;
    the others are lists in their [Meta.ordering]. *)
Record Db := {
  product_table : gmap N Product;
  variant_table : gmap N VariantRow;
  cart_table : list CartRow;
  cartitem_table : list CartItemRow;
  order_table : list Order;
  orderitem_table : list OrderItem;
}.

Definition with_products (t : gmap N Product) (db : Db) : Db :=
  {| product_table := t; variant_table := variant_table db;
     cart_table := cart_table db; cartitem_table := cartitem_table db;
     order_table := order_table db; orderitem_table := orderitem_table db |}.

Definition with_variants (t : gmap N VariantRow) (db : Db) : Db :=
  {| product_table := product_table db; variant_table := t;
     cart_table := cart_table db; cartitem_table := cartitem_table db;
     order_table := order_table db; orderitem_table := orderitem_table db |}.

Definition with_cartitems (t : list CartItemRow) (db : Db) : Db :=
  {| product_table := product_table db; variant_table := variant_table db;
     cart_table := cart_table db; cartitem_table := t;
     order_table := order_table db; orderitem_table := orderitem_table db |}.

Definition with_orders (t : list Order) (db : Db) : Db :=
  {| product_table := product_table db; variant_table := variant_table db;
     cart_table := cart_table db; cartitem_table := cartitem_table db;
     order_table := t; orderitem_table := orderitem_table db |}.

Definition with_orderitems (t : list OrderItem) (db : Db) : Db :=
  {| product_table := product_table db; variant_table := variant_table db;
     cart_table := cart_table db; cartitem_table := cartitem_table db;
     order_table := order_table db; orderitem_table := t |}.

(** *** Loading and saving instances *)

Definition get_product (db : Db) (pk : N) : result Product :=
  from_option "Product" (product_table db !! pk).

Definition get_variant (db : Db) (pk : N) : result ProductVariant :=
  row ← from_option "ProductVariant" (variant_table db !! pk);
  p ← get_product db (vr_product row);
  mret {| variant_id := pk; product := p; size := vr_size row;
          color := vr_color row; stock := vr_stock row;
          additional_price := vr_additional_price row |}.

Definition load_item (db : Db) (row : CartItemRow) : result CartItem :=
  p ← get_product db (cir_product row);
  v ← match cir_variant row with
      | Some pk => Some <$> get_variant db pk
      | None => mret None
      end;
  mret {| item_product := p; item_variant := v;
          quantity := cir_quantity row |}.

Fixpoint load_items (db : Db) (rows : list CartItemRow)
  : result (list CartItem) :=
  match rows with
  | [] => mret []
  | row :: rows' =>
      item ← load_item db row;
      items ← load_items db rows';
      mret (item :: items)
  end.

(** [cart.items.all()] as rows. *)
Definition item_rows (db : Db) (cart : N) : list CartItemRow :=
  filter (fun row => cir_cart row = cart) (cartitem_table db).

(** A cart with its related items; under the foreign-key constraints
    of the schema every reference resolves. *)
Definition load_cart (db : Db) (row : CartRow) : result Cart :=
  items ← load_items db (item_rows db (cr_id row));
  mret {| cart_id := cr_id row; cart_user := cr_user row;
          session_key := cr_session_key row; items := items |}.

Definition save_product (p : Product) (db : Db) : Db :=
  with_products (<[product_id p := p]> (product_table db)) db.

Definition save_variant (v : ProductVariant) (db : Db) : Db :=
  with_variants
    (<[variant_id v :=
         {| vr_product := product_id (product v); vr_size := size v;
            vr_color := color v; vr_stock := stock v;
            vr_additional_price := additional_price v |}]>
       (variant_table db)) db.

Definition sub_stock (q : Z) (v : ProductVariant) : ProductVariant :=
  {| variant_id := variant_id v; product := product v; size := size v;
     color := color v; stock := stock v - q;
     additional_price := additional_price v |}.

Definition sell (q : Z) (p : Product) : Product :=
  {| product_id := product_id p; name := name p; sku := sku p;
     base_price := base_price p;
     discount_percentage := discount_percentage p;
     discount_amount := discount_amount p;
     total_stock := total_stock p - q; sales_count := sales_count p + q |}.

(** [Cart.clear] *)
Definition clear (cart : N) (db : Db) : Db :=
  with_cartitems
    (filter (fun row => cir_cart row <> cart) (cartitem_table db)) db.

(** *** The request *)

Record Request := {
  user : Accounts.User;
  POST : gmap string string;
}.

(** [request.POST.get(key, default)] *)
Definition post_get (req : Request) (key dflt : string) : string :=
  default dflt (POST req !! key).

(** What the environment supplies to one request: the clock, the
    UUID drawn for the new order and the generated order number. *)
Record Env := {
  now : Z;
  new_uuid : N;
  new_number : string;
}.

Inductive Response :=
| RedirectProductList
| RedirectOrderConfirmation (order : N).

Record Outcome := {
  response : Response;
  message : string * string;
  db_after : Db;
}.

(** The body of the loop over [cart.items.all()]: the related product
    and variant are fetched when the item is reached. *)
Definition checkout_item (order : N) (db : Db) (row : CartItemRow)
  : result Db :=
  cart_item ← load_item db row;
  let line :=
    {| oi_order := order;
       oi_product := Some (cir_product row);
       oi_variant := cir_variant row;
       product_name := name (item_product cart_item);
       product_sku := sku (item_product cart_item);
       oi_size := match item_variant cart_item with
                  | Some v => size v | None => "" end;
       oi_color := match item_variant cart_item with
                   | Some v => color v | None => "" end;
       oi_unit_price := unit_price cart_item;
       oi_quantity := quantity cart_item;
       oi_discount_amount := 0%Q |} in
  let db := with_orderitems (orderitem_table db ++ [line]) db in
  let db :=
    match item_variant cart_item with
    | Some v => save_variant (sub_stock (quantity cart_item) v) db
    | None => db
    end in
  mret (save_product (sell (quantity cart_item) (item_product cart_item)) db).

Fixpoint checkout_items (order : N) (db : Db) (rows : list CartItemRow)
  : result Db :=
  match rows with
  | [] => mret db
  | row :: rows' =>
      db' ← checkout_item order db row;
      checkout_items order db' rows'
  end.

(** [Order.objects.create(...)] with the keyword arguments of the view;
    the columns left out take their defaults.  The amounts are those of
    the instance the view builds, as the cart computes them; the
    two-decimal rounding of the database columns is not applied. *)
Definition create_order (env : Env) (req : Request) (cart : Cart) : Order :=
  let u := user req in
  Orders.save (now env) (new_number env)
    {| order_id := new_uuid env;
       order_number := "";
       order_user := Some (Accounts.id u);
       customer :=
         {| customer_name := Accounts.full_name u;
            customer_email := Accounts.email u;
            customer_phone := Accounts.phone_number u |};
       ship_to :=
         {| shipping_address :=
              post_get req "shipping_address" (Accounts.address u);
            shipping_city := post_get req "shipping_city" (Accounts.city u);
            shipping_state :=
              post_get req "shipping_state" (Accounts.state u);
            shipping_country :=
              post_get req "shipping_country" (Accounts.country u);
            shipping_postal_code :=
              post_get req "shipping_postal_code" (Accounts.postal_code u) |};
       status := "pending";
       payment_method := post_get req "payment_method" "cod";
       payment_status := "pending";
       pricing :=
         {| order_subtotal := subtotal cart; order_tax := tax cart;
            order_shipping := shipping cart; order_discount := 0%Q;
            order_total := total cart |};
       customer_notes := post_get req "notes" "";
       paid_at := None; shipped_at := None; delivered_at := None;
       cancelled_at := None |}.

(** [Cart.objects.filter(user=request.user).first()] *)
Definition first_cart (db : Db) (u : Accounts.User) : option CartRow :=
  head (filter (fun row => cr_user row = Some (Accounts.id u))
               (cart_table db)).

Definition empty_cart (db : Db) : Outcome :=
  {| response := RedirectProductList;
     message := ("warning", "Your cart is empty.");
     db_after := db |}.

(** [CheckoutView.post] *)
Definition post (env : Env) (req : Request) (db : Db) : result Outcome :=
  match first_cart db (user req) with
  | None => mret (empty_cart db)
  | Some row =>
      cart ← load_cart db row;
      if bool_decide (total_items cart = 0%Z) then mret (empty_cart db)
      else
        let order := create_order env req cart in
        let db := with_orders (order :: order_table db) db in
        db ← checkout_items (order_id order) db (item_rows db (cart_id cart));
        mret {| response := RedirectOrderConfirmation (order_id order);
                message := ("success", "Order placed successfully!");
                db_after := clear (cart_id cart) db |}
  end.

(** Observations on a database. *)
Definition variant_stock (db : Db) (pk : N) : option Z :=
  vr_stock <$> variant_table db !! pk.

Definition product_stock (db : Db) (pk : N) : option Z :=
  total_stock <$> product_table db !! pk.
End Views.

(** ** Vocabulary of the properties *)

Section Vocabulary.
Import Orders.
Local Open Scope string_scope.

(** The four statuses that carry a timestamp column. *)
Inductive Milestone := Paid | Shipped | Delivered | Cancelled.

Definition milestone_status (m : Milestone) : string :=
  match m with
  | Paid => "paid"
  | Shipped => "shipped"
  | Delivered => "delivered"
  | Cancelled => "cancelled"
  end.

Definition milestone_at (m : Milestone) (o : Order) : option Z :=
  match m with
  | Paid => paid_at o
  | Shipped => shipped_at o
  | Delivered => delivered_at o
  | Cancelled => cancelled_at o
  end.

(** What the third test of [is_valid] lets through. *)
Definition usage_open (c : Coupon) : Prop :=
  match usage_limit c with
  | None => True
  | Some limit => (limit = 0 \/ usage_count c < limit)%Z
  end.
End Vocabulary.

(** ** Sample data of the scenarios *)

Section Samples.
Import Decimal Products Accounts Orders Views.
Local Open Scope string_scope.

(** The products of the scenarios. *)
Definition shirt (base pct amount : Q) : Product :=
  {| product_id := 1; name := "Shirt"; sku := "SH-1";
     base_price := base; discount_percentage := pct;
     discount_amount := amount; total_stock := 10; sales_count := 0 |}.

Definition two_shirts : CartItem :=
  {| item_product := shirt 100%Q 20%Q 0%Q; item_variant := None;
     quantity := 2%Z |}.

Definition one_cheap_shirt : CartItem :=
  {| item_product := shirt 10%Q 0%Q 0%Q; item_variant := None;
     quantity := 1%Z |}.

Definition one_line_cart (i : CartItem) : Cart :=
  {| cart_id := 1; cart_user := Some 7%N; session_key := None;
     items := [i] |}.

Definition coupon (kind : string) (value minimum : Q) (limit : option Z)
    (used : Z) (active : bool) : Coupon :=
  {| code := "WELCOME"; discount_type := kind; discount_value := value;
     minimum_purchase := minimum; usage_limit := limit; usage_count := used;
     valid_from := 100; valid_to := 200; is_active := active;
     applicable_categories := []; applicable_products := [];
     applicable_users := [] |}.

Definition spent_coupon : Coupon := coupon "fixed" 10%Q 0%Q (Some 0%Z) 0%Z true.

Definition member (i : N) (r : string) (super : bool) : User :=
  {| id := i; username := "user"; first_name := "Sam"; last_name := "Doe";
     email := "sam@example.com"; phone_number := ""; address := "";
     city := ""; state := ""; country := ""; postal_code := "";
     role := r; is_staff := false; is_superuser := super |}.

Definition draft : Order :=
  {| order_id := 1; order_number := "";
     order_user := Some 7%N;
     customer := {| customer_name := "Sam Doe";
                    customer_email := "sam@example.com";
                    customer_phone := "" |};
     ship_to := {| shipping_address := "1 Main St"; shipping_city := "Cairo";
                   shipping_state := ""; shipping_country := "EG";
                   shipping_postal_code := "" |};
     status := "pending"; payment_method := "cod";
     payment_status := "pending";
     pricing := {| order_subtotal := 160%Q; order_tax := 16%Q;
                   order_shipping := 0%Q; order_discount := 0%Q;
                   order_total := 176%Q |};
     customer_notes := "";
     paid_at := None; shipped_at := None; delivered_at := None;
     cancelled_at := None |}.

Definition at_time (s : string) (t : Z) : SaveEvent :=
  {| ev_status := s; ev_now := t; ev_number := "VSO20260101AB12" |}.

(** One product with a single variant, three units left, and two
    customers who each hold a cart asking for three units of it. *)
Definition jacket : Product :=
  {| product_id := 1; name := "Jacket"; sku := "JK-1";
     base_price := 80%Q; discount_percentage := 0%Q;
     discount_amount := 0%Q; total_stock := 3; sales_count := 0 |}.

Definition jacket_m_blue : VariantRow :=
  {| vr_product := 1; vr_size := "M"; vr_color := "Blue"; vr_stock := 3;
     vr_additional_price := 0%Q |}.

Definition shop : Db :=
  {| product_table := {[ 1%N := jacket ]};
     variant_table := {[ 1%N := jacket_m_blue ]};
     cart_table :=
       [ {| cr_id := 1; cr_user := Some 7%N; cr_session_key := None |};
         {| cr_id := 2; cr_user := Some 8%N; cr_session_key := None |} ];
     cartitem_table :=
       [ {| cir_cart := 1; cir_product := 1; cir_variant := Some 1%N;
            cir_quantity := 3 |};
         {| cir_cart := 2; cir_product := 1; cir_variant := Some 1%N;
            cir_quantity := 3 |} ];
     order_table := [];
     orderitem_table := [] |}.

Definition request_of (u : N) : Request :=
  {| user := member u "customer" false; POST := ∅ |}.

Definition first_env : Env :=
  {| now := 1000; new_uuid := 101; new_number := "VSO20260101AAAA" |}.

Definition second_env : Env :=
  {| now := 1001; new_uuid := 102; new_number := "VSO20260101BBBB" |}.
End Samples.

(** ** orders/models.py, continued: [Order.calculate_totals] *)

Module OrderTotals.
Import Decimal Orders.
Local Open Scope Q_scope.
Local Open Scope string_scope.

(** The stored values of [Order.STATUS_CHOICES]. *)
Definition STATUS_CHOICES : list string :=
  [ "pending"; "processing"; "paid"; "shipped"; "delivered"; "cancelled";
    "refunded" ].

Definition set_pricing (p : Pricing) (o : Order) : Order :=
  {| order_id := order_id o; order_number := order_number o;
     order_user := order_user o;
     customer := customer o; ship_to := ship_to o; status := status o;
     payment_method := payment_method o; payment_status := payment_status o;
     pricing := p; customer_notes := customer_notes o;
     paid_at := paid_at o; shipped_at := shipped_at o;
     delivered_at := delivered_at o; cancelled_at := cancelled_at o |}.

(** [Order.calculate_totals]; [lines] is the result of
    [self.items.all()], [now] and [fresh_number] are those of the final
    [self.save()]. *)
Definition calculate_totals (now : Z) (fresh_number : string)
    (lines : list OrderItem) (self : Order) : Order :=
  let sub := py_sum (order_item_total_price <$> lines) in
  let tax := sub * (1 # 10) in
  let ship := if ge sub 50 then 0 else 5 in
  let tot := sub + tax + ship - order_discount (pricing self) in
  Orders.save now fresh_number
    (set_pricing
       {| order_subtotal := sub; order_tax := tax; order_shipping := ship;
          order_discount := order_discount (pricing self);
          order_total := tot |} self).
End OrderTotals.

(** ** Further vocabulary *)

Section MoreVocabulary.
Local Open Scope string_scope.

(** A string made of whitespace only (the empty string included). *)
Fixpoint all_space (s : string) : bool :=
  match s with
  | String c s' => PyStr.is_space c && all_space s'
  | EmptyString => true
  end.

(** Every permission string that occurs in the matrix of [has_perm]. *)
Definition matrix_permissions : list string :=
  [ "products.add_product"; "products.change_product";
    "products.view_product"; "orders.view_order"; "orders.change_order";
    "accounts.view_user"; "accounts.add_user"; "orders.add_order" ].
End MoreVocabulary.

(** ** orders/models.py, continued: [Cart.merge_with] on the database *)

Module CartOps.
Import Orders Views.

Definition with_carts (t : list CartRow) (db : Db) : Db :=
  {| product_table := product_table db; variant_table := variant_table db;
     cart_table := t; cartitem_table := cartitem_table db;
     order_table := order_table db; orderitem_table := orderitem_table db |}.

(** [cart.delete()]: the row of the cart and, by [on_delete=CASCADE],
    its lines. *)
Definition delete_cart (cart : N) (db : Db) : Db :=
  with_carts (filter (fun row => cr_id row <> cart) (cart_table db))
             (clear cart db).

Definition add_quantity (q : Z) (row : CartItemRow) : CartItemRow :=
  {| cir_cart := cir_cart row; cir_product := cir_product row;
     cir_variant := cir_variant row;
     cir_quantity := cir_quantity row + q |}.

Definition set_cart (cart : N) (row : CartItemRow) : CartItemRow :=
  {| cir_cart := cart; cir_product := cir_product row;
     cir_variant := cir_variant row; cir_quantity := cir_quantity row |}.

(** [other_cart.items.all()] as the loop sees it: each line as it was
    read, with its position in the table, which identifies the row
    while the loop runs (the loop inserts and deletes no row). *)
Definition indexed_rows (db : Db) (cart : N) : list (nat * CartItemRow) :=
  filter (fun entry => cir_cart entry.2 = cart)
         (imap pair (cartitem_table db)).

(** The body of the loop of [merge_with]:
    [self.items.filter(product=..., variant=...).first()] is looked up
    in the current table; either its quantity grows by the quantity of
    the line read, or the line read is saved with [cart = self]. *)
Definition merge_item (self : N) (db : Db) (entry : nat * CartItemRow) : Db :=
  let item := entry.2 in
  match list_find (fun row => cir_cart row = self
                              /\ cir_product row = cir_product item
                              /\ cir_variant row = cir_variant item)
                  (cartitem_table db) with
  | Some (j, existing) =>
      with_cartitems
        (<[j := add_quantity (cir_quantity item) existing]>
           (cartitem_table db)) db
  | None =>
      with_cartitems (<[entry.1 := set_cart self item]> (cartitem_table db)) db
  end.

(** [Cart.merge_with] *)
Definition merge_with (self other : N) (db : Db) : Db :=
  delete_cart other (foldl (merge_item self) db (indexed_rows db other)).
End CartOps.

(** ** Observations on the database *)

Section DbVocabulary.
Import Products Views.

(** Units of a product accounted for: those in stock and those sold. *)
Definition units (db : Db) (pk : N) : option Z :=
  (fun p => total_stock p + sales_count p)%Z <$> product_table db !! pk.

(** The number of items in a cart, read from its rows. *)
Definition cart_quantity (db : Db) (cart : N) : Z :=
  foldl Z.add 0%Z (cir_quantity <$> item_rows db cart).

(** The quantity a row contributes to a cart. *)
Definition share (cart : N) (row : CartItemRow) : Z :=
  if decide (cir_cart row = cart) then cir_quantity row else 0%Z.

Definition shares (cart : N) (rows : list CartItemRow) : Z :=
  foldr (fun row acc => share cart row + acc)%Z 0%Z rows.

(** The quantities of lines read together with their positions. *)
Definition read_quantity (entries : list (nat * CartItemRow)) : Z :=
  foldr (fun entry acc => cir_quantity entry.2 + acc)%Z 0%Z entries.

(** Every product is stored under its own primary key. *)
Definition pk_consistent (db : Db) : Prop :=
  forall (pk : N) (p : Product),
    product_table db !! pk = Some p -> product_id p = pk.
End DbVocabulary.

(** ** Further sample data *)

Section MoreSamples.
Import Decimal Products Accounts Orders OrderTotals.
Local Open Scope string_scope.

Definition order_line (price : Q) (qty : Z) : OrderItem :=
  {| oi_order := 1; oi_product := Some 1%N; oi_variant := None;
     product_name := "Shirt"; product_sku := "SH-1"; oi_size := "";
     oi_color := ""; oi_unit_price := price; oi_quantity := qty;
     oi_discount_amount := 0%Q |}.

Definition draft_with_discount (d : Q) : Order :=
  set_pricing
    {| order_subtotal := 160%Q; order_tax := 16%Q; order_shipping := 0%Q;
       order_discount := d; order_total := (176 - d)%Q |} draft.

(** A customer with a kept cart (1) who shopped in a session cart (3)
    before logging in; another customer's cart (2) is a bystander. *)
Definition two_carts : Views.Db :=
  {| Views.product_table := {[ 1%N := jacket ]};
     Views.variant_table := {[ 1%N := jacket_m_blue ]};
     Views.cart_table :=
       [ {| Views.cr_id := 1; Views.cr_user := Some 7%N;
            Views.cr_session_key := None |};
         {| Views.cr_id := 2; Views.cr_user := Some 8%N;
            Views.cr_session_key := None |};
         {| Views.cr_id := 3; Views.cr_user := None;
            Views.cr_session_key := Some "abc" |} ];
     Views.cartitem_table :=
       [ {| Views.cir_cart := 3; Views.cir_product := 1;
            Views.cir_variant := Some 1%N; Views.cir_quantity := 2 |};
         {| Views.cir_cart := 2; Views.cir_product := 1;
            Views.cir_variant := Some 1%N; Views.cir_quantity := 5 |};
         {| Views.cir_cart := 3; Views.cir_product := 1;
            Views.cir_variant := None; Views.cir_quantity := 4 |};
         {| Views.cir_cart := 1; Views.cir_product := 1;
            Views.cir_variant := Some 1%N; Views.cir_quantity := 1 |} ];
     Views.order_table := [];
     Views.orderitem_table := [] |}.

(** The outcome of the first customer's checkout in [shop]. *)
Definition first_outcome : Views.Outcome :=
  match Views.post first_env (request_of 7) shop with
  | Views.Ok out => out
  | Views.Raise _ => Views.empty_cart shop
  end.
End MoreSamples.

(** ** Facts about the decimal helpers *)

Section DecimalFacts.
Import Decimal.
Local Open Scope Q_scope.

Lemma lt_true (a b : Q) : lt a b = true <-> a < b.
Proof.
  unfold lt. rewrite negb_true_iff, <- not_true_iff_false, Qle_bool_iff.
  split; [apply Qnot_le_lt | apply Qlt_not_le].
Qed.

Lemma lt_false (a b : Q) : lt a b = false <-> b <= a.
Proof.
  unfold lt. rewrite negb_false_iff. apply Qle_bool_iff.
Qed.

Lemma gt_true (a b : Q) : gt a b = true <-> b < a.
Proof. apply lt_true. Qed.

Lemma gt_false (a b : Q) : gt a b = false <-> a <= b.
Proof. apply lt_false. Qed.

Lemma ge_true (a b : Q) : ge a b = true <-> b <= a.
Proof. apply Qle_bool_iff. Qed.

Lemma ge_false (a b : Q) : ge a b = false <-> a < b.
Proof.
  unfold ge. rewrite <- not_true_iff_false, Qle_bool_iff.
  split; [apply Qnot_le_lt | apply Qlt_not_le].
Qed.

Lemma py_max_Qmax (a b : Q) : py_max a b == Qmax a b.
Proof.
  unfold py_max. destruct (gt b a) eqn:E.
  - apply gt_true in E. symmetry. apply Q.max_r. lra.
  - apply gt_false in E. symmetry. apply Q.max_l. exact E.
Qed.

Lemma py_min_Qmin (a b : Q) : py_min a b == Qmin a b.
Proof.
  unfold py_min. destruct (lt b a) eqn:E.
  - apply lt_true in E. symmetry. apply Q.min_r. lra.
  - apply lt_false in E. symmetry. apply Q.min_l. exact E.
Qed.
End DecimalFacts.

(** ** Pricing: [Product.current_price] *)

Section Pricing.
Import Decimal Products.
Local Open Scope Q_scope.

Lemma current_price_percentage (p : Product) :
  0 < discount_percentage p ->
  current_price p = base_price p * (1 - discount_percentage p / 100).
Proof.
  intros H. unfold current_price.
  apply gt_true in H. now rewrite H.
Qed.

Lemma current_price_amount (p : Product) :
  ~ 0 < discount_percentage p -> 0 < discount_amount p ->
  current_price p = py_max (base_price p - discount_amount p) 0.
Proof.
  intros Hp Ha. unfold current_price.
  destruct (gt (discount_percentage p) 0) eqn:E.
  - apply gt_true in E. contradiction.
  - apply gt_true in Ha. now rewrite Ha.
Qed.

Lemma current_price_plain (p : Product) :
  ~ 0 < discount_percentage p -> ~ 0 < discount_amount p ->
  current_price p = base_price p.
Proof.
  intros Hp Ha. unfold current_price.
  destruct (gt (discount_percentage p) 0) eqn:E.
  - apply gt_true in E. contradiction.
  - destruct (gt (discount_amount p) 0) eqn:E'; [|reflexivity].
    apply gt_true in E'. contradiction.
Qed.

(** C1. [current_price] is [base_price * (1 - discount_percentage/100)]
    when the percentage is positive, whatever [discount_amount] is;
    otherwise [max(base_price - discount_amount, 0)] when the amount is
    positive; otherwise [base_price].  A product with base price 100
    and a 20 percent discount therefore costs 80. *)
Theorem current_price_cases (p : Product) :
  (0 < discount_percentage p ->
     current_price p == base_price p * (1 - discount_percentage p / 100))
  /\ (~ 0 < discount_percentage p -> 0 < discount_amount p ->
     current_price p == Qmax (base_price p - discount_amount p) 0)
  /\ (~ 0 < discount_percentage p -> ~ 0 < discount_amount p ->
     current_price p == base_price p)
  /\ (base_price p == 100 -> discount_percentage p == 20 ->
     current_price p == 80).
Proof.
  split; [|split; [|split]].
  - intros H. now rewrite current_price_percentage.
  - intros Hp Ha. rewrite current_price_amount by assumption.
    apply py_max_Qmax.
  - intros Hp Ha. now rewrite current_price_plain.
  - intros Hb Hd. rewrite current_price_percentage by (rewrite Hd; lra).
    rewrite Hb, Hd. reflexivity.
Qed.

Lemma current_price_cases_witness :
  current_price (shirt 100 20 5) == 100 * (1 - 20 / 100)
  /\ current_price (shirt 100 0 130) == Qmax (100 - 130) 0
  /\ current_price (shirt 100 0 0) == 100
  /\ current_price (shirt 100 20 5) == 80.
Proof.
  split; [|split; [|split]].
  - apply (proj1 (current_price_cases (shirt 100 20 5))).
    reflexivity.
  - apply (proj1 (proj2 (current_price_cases (shirt 100 0 130)))).
    + intros H; discriminate H.
    + reflexivity.
  - apply (proj1 (proj2 (proj2 (current_price_cases (shirt 100 0 0))))).
    + intros H; discriminate H.
    + intros H; discriminate H.
  - apply (proj2 (proj2 (proj2 (current_price_cases (shirt 100 20 5))))).
    + reflexivity.
    + reflexivity.
Defined.
End Pricing.

(** ** Cart totals: [Cart.tax], [Cart.shipping], [Cart.total] *)

Section CartTotals.
Import Decimal Products Orders.
Local Open Scope Q_scope.

Lemma shipping_free (c : Cart) : 50 <= subtotal c -> shipping c = 0.
Proof.
  intros H. unfold shipping. apply ge_true in H. now rewrite H.
Qed.

Lemma shipping_flat (c : Cart) : subtotal c < 50 -> shipping c = 5.
Proof.
  intros H. unfold shipping. apply ge_false in H. now rewrite H.
Qed.

Lemma subtotal_single (c : Cart) (i : CartItem) :
  items c = [i] -> subtotal c == unit_price i * inject_Z (quantity i).
Proof.
  intros H. unfold subtotal, py_sum, total_price. rewrite H. simpl. lra.
Qed.

(** [sum] adds the line totals from left to right. *)
Lemma foldl_Qplus_from (a : Q) (xs : list Q) :
  foldl Qplus a xs == a + foldl Qplus 0 xs.
Proof.
  revert a. induction xs as [|y ys IH]; intros a; simpl; [lra|].
  rewrite (IH (a + y)), (IH (0 + y)). lra.
Qed.

Lemma py_sum_cons (x : Q) (xs : list Q) : py_sum (x :: xs) == x + py_sum xs.
Proof.
  unfold py_sum. simpl. rewrite foldl_Qplus_from. lra.
Qed.

Lemma subtotal_cons (c : Cart) (i : CartItem) (rest : list CartItem) :
  items c = i :: rest ->
  subtotal c == total_price i + py_sum (total_price <$> rest).
Proof.
  intros H. unfold subtotal. rewrite H. apply py_sum_cons.
Qed.

(** C7. For every cart the tax is a tenth of the subtotal, shipping is
    free from a subtotal of 50 on and 5 below it, and the total is
    subtotal plus tax plus shipping.  A cart with a single line of two
    units at unit price 80 has subtotal 160, tax 16, shipping 0 and
    total 176. *)
Theorem cart_totals (c : Cart) :
  tax c == subtotal c * (10 # 100)
  /\ (50 <= subtotal c -> shipping c == 0)
  /\ (subtotal c < 50 -> shipping c == 5)
  /\ total c == subtotal c + tax c + shipping c
  /\ (forall i : CartItem,
        items c = [i] -> unit_price i == 80 -> quantity i = 2%Z ->
        subtotal c == 160 /\ tax c == 16 /\ shipping c == 0
        /\ total c == 176).
Proof.
  split; [|split; [|split; [|split]]].
  - unfold tax. lra.
  - intros H. now rewrite shipping_free.
  - intros H. now rewrite shipping_flat.
  - reflexivity.
  - intros i Hi Hu Hq.
    assert (Hs : subtotal c == 160).
    { rewrite (subtotal_single c i Hi), Hu, Hq. reflexivity. }
    assert (Hship : shipping c = 0) by (apply shipping_free; lra).
    unfold total, tax. rewrite Hship.
    split; [exact Hs|]. split; [lra|]. split; lra.
Qed.

Lemma cart_totals_witness :
  shipping (one_line_cart two_shirts) == 0
  /\ shipping (one_line_cart one_cheap_shirt) == 5
  /\ (subtotal (one_line_cart two_shirts) == 160
      /\ tax (one_line_cart two_shirts) == 16
      /\ shipping (one_line_cart two_shirts) == 0
      /\ total (one_line_cart two_shirts) == 176).
Proof.
  split; [|split].
  - apply (proj1 (proj2 (cart_totals (one_line_cart two_shirts)))).
    vm_compute. discriminate.
  - apply (proj1 (proj2 (proj2 (cart_totals (one_line_cart one_cheap_shirt))))).
    reflexivity.
  - apply (proj2 (proj2 (proj2 (proj2 (cart_totals (one_line_cart two_shirts)))))
             two_shirts).
    + reflexivity.
    + reflexivity.
    + reflexivity.
Defined.
End CartTotals.

(** ** Coupons: [Coupon.calculate_discount] and [Coupon.is_valid] *)

Section Coupons.
Import Decimal Orders.
Local Open Scope Q_scope.

Lemma calculate_discount_below (c : Coupon) (s : Q) :
  s < minimum_purchase c -> calculate_discount c s = 0.
Proof.
  intros H. unfold calculate_discount. apply lt_true in H. now rewrite H.
Qed.

Lemma calculate_discount_percentage (c : Coupon) (s : Q) :
  ~ s < minimum_purchase c -> discount_type c = "percentage"%string ->
  calculate_discount c s = s * (discount_value c / 100).
Proof.
  intros H Ht. unfold calculate_discount.
  destruct (lt s (minimum_purchase c)) eqn:E.
  - apply lt_true in E. contradiction.
  - now rewrite bool_decide_eq_true_2.
Qed.

Lemma calculate_discount_other (c : Coupon) (s : Q) :
  ~ s < minimum_purchase c -> discount_type c <> "percentage"%string ->
  calculate_discount c s = py_min (discount_value c) s.
Proof.
  intros H Ht. unfold calculate_discount.
  destruct (lt s (minimum_purchase c)) eqn:E.
  - apply lt_true in E. contradiction.
  - now rewrite bool_decide_eq_false_2.
Qed.

Lemma calculate_discount_fixed (c : Coupon) (s : Q) :
  ~ s < minimum_purchase c -> discount_type c = "fixed"%string ->
  calculate_discount c s = py_min (discount_value c) s.
Proof.
  intros H Ht. apply calculate_discount_other; [exact H|].
  rewrite Ht. discriminate.
Qed.

(** C3. [calculate_discount] is 0 below the minimum purchase; otherwise
    it is [subtotal * (discount_value / 100)] for a percentage coupon
    and [min(discount_value, subtotal)] for a fixed coupon, which is
    never more than the subtotal.  A fixed coupon of 1000 on a subtotal
    of 50 gives 50. *)
Theorem calculate_discount_cases (c : Coupon) (s : Q) :
  (s < minimum_purchase c -> calculate_discount c s == 0)
  /\ (~ s < minimum_purchase c -> discount_type c = "percentage"%string ->
      calculate_discount c s == s * (discount_value c / 100))
  /\ (~ s < minimum_purchase c -> discount_type c = "fixed"%string ->
      calculate_discount c s == Qmin (discount_value c) s
      /\ calculate_discount c s <= s)
  /\ (discount_type c = "fixed"%string -> 0 <= s ->
      calculate_discount c s <= s)
  /\ (discount_type c = "fixed"%string -> discount_value c == 1000 ->
      minimum_purchase c <= 50 -> calculate_discount c 50 == 50).
Proof.
  split; [|split; [|split; [|split]]].
  - intros H. now rewrite calculate_discount_below.
  - intros H Ht. now rewrite calculate_discount_percentage.
  - intros H Ht. rewrite calculate_discount_fixed by assumption.
    rewrite py_min_Qmin. split; [reflexivity|apply Q.le_min_r].
  - intros Ht Hs. destruct (Qlt_le_dec s (minimum_purchase c)) as [Hlt|Hge].
    + now rewrite calculate_discount_below.
    + rewrite calculate_discount_fixed by (assumption || lra).
      rewrite py_min_Qmin. apply Q.le_min_r.
  - intros Ht Hv Hm.
    rewrite calculate_discount_fixed by (assumption || lra).
    rewrite py_min_Qmin, Hv. reflexivity.
Qed.

Lemma calculate_discount_cases_witness :
  calculate_discount (coupon "fixed" 10 30 None 0 true) 20 == 0
  /\ calculate_discount (coupon "percentage" 25 30 None 0 true) 40
     == 40 * (25 / 100)
  /\ (calculate_discount (coupon "fixed" 1000 0 None 0 true) 50
      == Qmin 1000 50
      /\ calculate_discount (coupon "fixed" 1000 0 None 0 true) 50 <= 50)
  /\ calculate_discount (coupon "fixed" 10 30 None 0 true) 20 <= 20
  /\ calculate_discount (coupon "fixed" 1000 0 None 0 true) 50 == 50.
Proof.
  split; [|split; [|split; [|split]]].
  - apply (proj1 (calculate_discount_cases
                    (coupon "fixed" 10 30 None 0 true) 20)).
    reflexivity.
  - apply (proj1 (proj2 (calculate_discount_cases
                           (coupon "percentage" 25 30 None 0 true) 40))).
    + intros H; discriminate H.
    + reflexivity.
  - apply (proj1 (proj2 (proj2 (calculate_discount_cases
                                  (coupon "fixed" 1000 0 None 0 true) 50)))).
    + intros H; discriminate H.
    + reflexivity.
  - apply (proj1 (proj2 (proj2 (proj2 (calculate_discount_cases
                                  (coupon "fixed" 10 30 None 0 true) 20))))).
    + reflexivity.
    + intros H; discriminate H.
  - apply (proj2 (proj2 (proj2 (proj2 (calculate_discount_cases
                                  (coupon "fixed" 1000 0 None 0 true) 50))))).
    + reflexivity.
    + reflexivity.
    + intros H; discriminate H.
Defined.

(** A percentage above 100 takes more than the subtotal. *)
Lemma percentage_discount_exceeds (c : Coupon) (s : Q) :
  discount_type c = "percentage"%string -> 100 < discount_value c ->
  0 < s -> minimum_purchase c <= s -> s < calculate_discount c s.
Proof.
  intros Ht Hv Hs Hm.
  rewrite calculate_discount_percentage by (assumption || lra).
  assert (H1 : 1 < discount_value c / 100).
  { apply Qlt_shift_div_l; lra. }
  assert (H2 : s * 1 < s * (discount_value c / 100)).
  { apply Qmult_lt_l; assumption. }
  apply Qle_lt_trans with (s * 1); [|exact H2].
  rewrite Qmult_1_r. apply Qle_refl.
Qed.

(** C10. The cap by the subtotal belongs to fixed coupons only: there
    is a percentage coupon with [discount_value] above 100 and a
    positive subtotal reaching its minimum purchase for which
    [calculate_discount] is strictly more than the subtotal. *)
Theorem percentage_discount_uncapped :
  exists (c : Coupon) (s : Q),
    discount_type c = "percentage"%string
    /\ 100 < discount_value c
    /\ 0 < s
    /\ minimum_purchase c <= s
    /\ s < calculate_discount c s.
Proof.
  exists (coupon "percentage" 150 20 None 0 true), 40.
  split; [reflexivity|]. split; [reflexivity|]. split; [reflexivity|].
  split; [intros H; discriminate H|].
  apply percentage_discount_exceeds;
    (reflexivity || (intros H; discriminate H)).
Qed.
End Coupons.

Section CouponValidity.
Import Orders.
Local Open Scope Z_scope.

Lemma is_valid_inactive (now : Z) (c : Coupon) :
  is_active c = false -> is_valid now c = false.
Proof. intros H. unfold is_valid. now rewrite H. Qed.

Lemma is_valid_outside_window (now : Z) (c : Coupon) :
  now < valid_from c \/ valid_to c < now -> is_valid now c = false.
Proof.
  intros H. unfold is_valid. destruct (is_active c); simpl; [|reflexivity].
  destruct H as [H|H]; apply Z.ltb_lt in H; rewrite H; simpl;
    [reflexivity|]. now rewrite orb_true_r.
Qed.

Lemma is_valid_exhausted (now : Z) (c : Coupon) (limit : Z) :
  usage_limit c = Some limit -> limit <> 0 -> limit <= usage_count c ->
  is_valid now c = false.
Proof.
  intros Hl Hnz Hc. unfold is_valid, int_truthy, reaches. rewrite Hl.
  apply Z.eqb_neq in Hnz. apply Z.leb_le in Hc. rewrite Hnz, Hc. simpl.
  destruct (negb (is_active c)); [reflexivity|].
  now destruct ((now <? valid_from c) || (valid_to c <? now)).
Qed.

Lemma is_valid_true_iff (now : Z) (c : Coupon) :
  is_valid now c = true <->
  is_active c = true /\ valid_from c <= now <= valid_to c /\ usage_open c.
Proof.
  unfold is_valid, usage_open, int_truthy, reaches.
  destruct (is_active c); simpl; [|intuition discriminate].
  destruct (Z.ltb_spec now (valid_from c)); simpl;
    [split; [discriminate|lia]|].
  destruct (Z.ltb_spec (valid_to c) now); simpl;
    [split; [discriminate|lia]|].
  destruct (usage_limit c) as [limit|]; [|intuition lia].
  destruct (Z.eqb_spec limit 0); simpl; [intuition lia|].
  destruct (Z.leb_spec limit (usage_count c)); simpl.
  - split; [discriminate|]. intros (_ & _ & [?|?]); lia.
  - intuition lia.
Qed.

(** A usage limit of 0 is a falsy integer, so the usage test is skipped. *)
Lemma is_valid_zero_limit (now : Z) (c : Coupon) :
  is_active c = true -> valid_from c <= now <= valid_to c ->
  usage_limit c = Some 0 -> is_valid now c = true.
Proof.
  intros Ha Hw Hl. apply is_valid_true_iff.
  split; [exact Ha|]. split; [exact Hw|].
  unfold usage_open. rewrite Hl. now left.
Qed.

(** C4. The specification has [is_valid] answer false whenever a usage limit is
    set, 0 included, and [usage_count] has reached it.  The code tests
    the limit for truth, so an active coupon inside its validity window
    whose limit is 0 is reported valid although its count 0 has reached
    the limit 0. *)
Theorem is_valid_accepts_zero_limit :
  is_active spent_coupon = true
  /\ valid_from spent_coupon <= 150 <= valid_to spent_coupon
  /\ usage_limit spent_coupon = Some 0
  /\ usage_count spent_coupon >= 0
  /\ is_valid 150 spent_coupon = true.
Proof.
  split; [reflexivity|]. split; [simpl; lia|]. split; [reflexivity|].
  split; [simpl; lia|].
  apply is_valid_zero_limit; [reflexivity|simpl; lia|reflexivity].
Qed.
End CouponValidity.

(** ** Roles: [can_delete_user], [can_edit_user], [User.save], [has_perm] *)

Section Roles.
Import Accounts.
Local Open Scope string_scope.

Lemma rank_admin : rank "admin" = 3%Z.
Proof. reflexivity. Qed.

Lemma rank_employee : rank "employee" = 1%Z.
Proof. reflexivity. Qed.

Lemma rank_le_admin (r : string) : (rank r <= 3)%Z.
Proof.
  unfold rank, role_hierarchy. simpl.
  repeat (rewrite lookup_insert; case_decide; simpl; [lia|]).
  rewrite lookup_empty. simpl. lia.
Qed.

(** Nobody passes both guards against an administrator. *)
Lemma can_delete_admin_never (actor target : User) :
  role target = "admin" -> can_delete_user actor target = false.
Proof.
  intros Ht. unfold can_delete_user.
  destruct (negb (is_staff_member actor)); [reflexivity|].
  destruct (is_admin target && negb (is_superuser actor)); [reflexivity|].
  rewrite Ht, rank_admin, bool_decide_eq_true_2; [reflexivity|].
  pose proof (rank_le_admin (role actor)). lia.
Qed.

(** C5, as stated, fails: an employee who is a superuser is still
    refused. *)
Lemma employee_superuser_deletes_admin_refuted :
  ~ (forall actor target : User,
       role actor = "employee" -> role target = "admin" ->
       (is_superuser actor = false -> can_delete_user actor target = false)
       /\ (is_superuser actor = true -> can_delete_user actor target = true)).
Proof.
  intros H.
  destruct (H (member 1 "employee" true) (member 2 "admin" true)
              eq_refl eq_refl) as [_ H'].
  specialize (H' eq_refl). vm_compute in H'. discriminate H'.
Qed.

(** C5 (amended). When an employee calls [can_delete_user] on an
    administrator the answer is false, whether or not the employee is a
    superuser: the superuser flag lifts the administrator guard only,
    and the rank rule then refuses because 3 >= 1. *)
Theorem employee_cannot_delete_admin (actor target : User) :
  role actor = "employee" -> role target = "admin" ->
  can_delete_user actor target = false.
Proof.
  intros _ Ht. now apply can_delete_admin_never.
Qed.

Lemma employee_cannot_delete_admin_witness :
  can_delete_user (member 1 "employee" true) (member 2 "admin" true) = false
  /\ can_delete_user (member 1 "employee" false) (member 2 "admin" true)
     = false.
Proof.
  split; apply employee_cannot_delete_admin; reflexivity.
Defined.
End Roles.

Section SelfEdit.
Import Accounts.
Local Open Scope string_scope.

Lemma can_edit_self (actor target : User) :
  id actor = id target ->
  can_edit_user actor target = is_staff_member actor.
Proof.
  intros Hid. unfold can_edit_user.
  destruct (is_staff_member actor); simpl; [|reflexivity].
  now rewrite bool_decide_eq_true_2.
Qed.

(** C6, as stated, fails: a customer is refused before the identities
    are compared. *)
Lemma customer_self_edit_refuted :
  ~ (forall actor target : User,
       id actor = id target -> can_edit_user actor target = true).
Proof.
  intros H.
  specialize (H (member 5 "customer" false) (member 5 "customer" false)
                eq_refl).
  vm_compute in H. discriminate H.
Qed.

(** C6 (amended). For users with the same id, [can_edit_user] is true
    exactly when the actor is a staff member (role admin, manager or
    employee); for any other actor, a customer included, it is false. *)
Theorem can_edit_self_iff_staff (actor target : User) :
  id actor = id target ->
  (role actor ∈ ["admin"; "manager"; "employee"] ->
     can_edit_user actor target = true)
  /\ (role actor ∉ ["admin"; "manager"; "employee"] ->
     can_edit_user actor target = false).
Proof.
  intros Hid. rewrite (can_edit_self _ _ Hid). unfold is_staff_member.
  split; intros H.
  - now apply bool_decide_eq_true_2.
  - now apply bool_decide_eq_false_2.
Qed.

Lemma can_edit_self_iff_staff_witness :
  can_edit_user (member 4 "employee" false) (member 4 "employee" false)
    = true
  /\ can_edit_user (member 5 "customer" false) (member 5 "customer" false)
    = false.
Proof.
  split.
  - apply (proj1 (can_edit_self_iff_staff (member 4 "employee" false)
                    (member 4 "employee" false) eq_refl)).
    apply (bool_decide_unpack _). vm_compute. exact I.
  - apply (proj2 (can_edit_self_iff_staff (member 5 "customer" false)
                    (member 5 "customer" false) eq_refl)).
    apply (bool_decide_unpack _). vm_compute. exact I.
Defined.
End SelfEdit.

Section UserSave.
Import Accounts.
Local Open Scope string_scope.

Lemma save_role (u : User) : role (save u) = role u.
Proof.
  unfold save. repeat case_bool_decide; reflexivity.
Qed.

Lemma save_is_staff (u : User) :
  is_staff (save u) = bool_decide (role u ∈ ["admin"; "manager"; "employee"]).
Proof.
  unfold save. repeat case_bool_decide; reflexivity.
Qed.

Lemma save_admin_superuser (u : User) :
  role u = "admin" -> is_superuser (save u) = true.
Proof.
  intros H. unfold save.
  destruct (bool_decide (role u ∈ ["admin"; "manager"; "employee"]));
    simpl; rewrite bool_decide_eq_true_2 by assumption; reflexivity.
Qed.

Lemma save_keeps_superuser (u : User) :
  is_superuser u = true -> is_superuser (save u) = true.
Proof.
  intros H. unfold save. repeat case_bool_decide; simpl; auto.
Qed.

Lemma saves_keep_superuser (u : User) (roles : list string) :
  is_superuser u = true -> is_superuser (saves u roles) = true.
Proof.
  revert u. induction roles as [|r roles IH]; intros u H; simpl; [exact H|].
  apply IH. unfold assign_and_save. now apply save_keeps_superuser.
Qed.

Lemma saves_last_role (u : User) (roles : list string) (r : string) :
  role (saves u (roles ++ [r])) = r.
Proof.
  unfold saves. rewrite foldl_app. simpl. unfold assign_and_save.
  now rewrite save_role.
Qed.

Lemma has_perm_superuser (backend : User -> string -> bool) (u : User)
    (perm : string) :
  is_superuser u = true -> has_perm backend u perm = true.
Proof. intros H. unfold has_perm. now rewrite H. Qed.

(** C9. After [save], [is_staff] holds exactly for the roles admin,
    manager and employee, and the role admin forces [is_superuser].
    [save] never clears [is_superuser]: once a user has been saved as
    admin the flag survives every later reassignment of the role
    followed by [save], and [has_perm] keeps granting every permission
    without looking at the matrix. *)
Theorem save_flags_and_sticky_superuser (u : User) :
  (is_staff (save u) = true <-> role u ∈ ["admin"; "manager"; "employee"])
  /\ (role u = "admin" -> is_superuser (save u) = true)
  /\ (is_superuser u = true -> is_superuser (save u) = true)
  /\ (role u = "admin" ->
      forall (roles : list string) (r : string)
             (backend : User -> string -> bool) (perm : string),
        let later := saves (save u) (roles ++ [r]) in
        role later = r
        /\ is_superuser later = true
        /\ has_perm backend later perm = true).
Proof.
  split; [|split; [|split]].
  - rewrite save_is_staff. apply bool_decide_eq_true.
  - apply save_admin_superuser.
  - apply save_keeps_superuser.
  - intros Hadmin roles r backend perm later.
    assert (Hs : is_superuser later = true).
    { apply saves_keep_superuser. now apply save_admin_superuser. }
    split; [apply saves_last_role|]. split; [exact Hs|].
    now apply has_perm_superuser.
Qed.

(** No backend grants anything in this instance, and the customer row
    of the matrix does not list the permission asked for. *)
Lemma save_flags_and_sticky_superuser_witness :
  let later :=
    saves (save (member 3 "admin" false)) (["manager"] ++ ["customer"]) in
  is_superuser (save (member 3 "admin" false)) = true
  /\ role later = "customer"
  /\ is_staff later = false
  /\ is_superuser later = true
  /\ has_perm (fun _ _ => false) later "products.delete_product" = true
  /\ has_perm (fun _ _ => false) (member 3 "customer" false)
       "products.delete_product" = false.
Proof.
  intros later.
  pose proof (save_flags_and_sticky_superuser (member 3 "admin" false))
    as (_ & Hadmin & _ & Hlater).
  specialize (Hlater eq_refl ["manager"] "customer" (fun _ _ => false)
                "products.delete_product").
  destruct Hlater as (Hr & Hs & Hp).
  split; [apply Hadmin; reflexivity|]. split; [exact Hr|].
  split; [reflexivity|]. split; [exact Hs|]. split; [exact Hp|].
  reflexivity.
Defined.
End UserSave.

(** ** Status timestamps: [Order.save] *)

Section OrderSave.
Import Orders.
Local Open Scope string_scope.

Ltac save_cases :=
  unfold save;
  repeat match goal with
    | |- context [str_falsy ?s] => destruct (str_falsy s); simpl
    | |- context [bool_decide ?P] => destruct (bool_decide_reflect P); simpl
    | |- context [unset ?t] => destruct t eqn:?; simpl
    end;
  simpl in *; try congruence.

Lemma save_sets_stamp (m : Milestone) (now : Z) (n : string) (o : Order) :
  status o = milestone_status m -> milestone_at m o = None ->
  milestone_at m (save now n o) = Some now.
Proof.
  intros Hs Hn. destruct m; simpl in *; save_cases.
Qed.

Lemma save_keeps_stamp (m : Milestone) (now : Z) (n : string) (o : Order)
    (t : Z) :
  milestone_at m o = Some t -> milestone_at m (save now n o) = Some t.
Proof.
  intros Hn. destruct m; simpl in *; save_cases.
Qed.

Lemma save_other_status (m : Milestone) (now : Z) (n : string) (o : Order) :
  status o <> milestone_status m ->
  milestone_at m (save now n o) = milestone_at m o.
Proof.
  intros Hs. destruct m; simpl in *; save_cases.
Qed.

Lemma set_status_stamp (m : Milestone) (s : string) (o : Order) :
  milestone_at m (set_status s o) = milestone_at m o.
Proof. now destruct m. Qed.

Lemma saves_keep_stamp (m : Milestone) (o : Order) (es : list SaveEvent)
    (t : Z) :
  milestone_at m o = Some t -> milestone_at m (saves o es) = Some t.
Proof.
  revert o. induction es as [|e es IH]; intros o H; simpl; [exact H|].
  apply IH. unfold assign_and_save. apply save_keeps_stamp.
  now rewrite set_status_stamp.
Qed.

Lemma saves_before_status (m : Milestone) (o : Order) (es : list SaveEvent) :
  Forall (fun e => ev_status e <> milestone_status m) es ->
  milestone_at m (saves o es) = milestone_at m o.
Proof.
  intros H. revert o. induction H as [|e es He _ IH]; intros o; simpl;
    [reflexivity|].
  rewrite IH. unfold assign_and_save.
  rewrite save_other_status by exact He. apply set_status_stamp.
Qed.

(** C8. For each of the statuses paid, shipped, delivered and
    cancelled: a save made in that status while its timestamp is null
    sets the timestamp to the current time; a save never changes a
    timestamp that is set, nor does any later sequence of status
    changes and saves; so in any history the timestamp is the time of
    the first save made in that status, even when the status is
    entered again later. *)
Theorem status_timestamp_set_once (m : Milestone) :
  (forall (now : Z) (n : string) (o : Order),
      status o = milestone_status m -> milestone_at m o = None ->
      milestone_at m (save now n o) = Some now)
  /\ (forall (now : Z) (n : string) (o : Order) (t : Z),
      milestone_at m o = Some t -> milestone_at m (save now n o) = Some t)
  /\ (forall (o : Order) (es : list SaveEvent) (t : Z),
      milestone_at m o = Some t -> milestone_at m (saves o es) = Some t)
  /\ (forall (o : Order) (before after : list SaveEvent) (e : SaveEvent),
      milestone_at m o = None ->
      Forall (fun e' => ev_status e' <> milestone_status m) before ->
      ev_status e = milestone_status m ->
      milestone_at m (saves o (before ++ e :: after)) = Some (ev_now e)).
Proof.
  split; [|split; [|split]].
  - intros now n o. apply save_sets_stamp.
  - intros now n o t. apply save_keeps_stamp.
  - intros o es t. apply saves_keep_stamp.
  - intros o before after e Hnone Hbefore He.
    unfold saves. rewrite foldl_app. simpl.
    apply saves_keep_stamp. unfold assign_and_save.
    apply save_sets_stamp; [exact He|].
    rewrite set_status_stamp.
    fold (saves o before). now rewrite saves_before_status.
Qed.

Lemma status_timestamp_set_once_witness :
  paid_at (save 10 "VSO20260101AB12" (set_status "paid" draft)) = Some 10%Z
  /\ paid_at (save 30 "VSO20260101AB12"
                (save 10 "VSO20260101AB12" (set_status "paid" draft)))
     = Some 10%Z
  /\ shipped_at
       (saves (saves draft [at_time "shipped" 20])
              [at_time "delivered" 30; at_time "shipped" 40])
     = Some 20%Z
  /\ cancelled_at
       (saves draft ([at_time "processing" 5; at_time "paid" 10]
                     ++ at_time "cancelled" 50
                     :: [at_time "pending" 60; at_time "cancelled" 70]))
     = Some 50%Z.
Proof.
  split; [|split; [|split]].
  - apply (proj1 (status_timestamp_set_once Paid)); reflexivity.
  - apply (proj1 (proj2 (status_timestamp_set_once Paid))). reflexivity.
  - apply (proj1 (proj2 (proj2 (status_timestamp_set_once Shipped)))).
    reflexivity.
  - apply (proj2 (proj2 (proj2 (status_timestamp_set_once Cancelled)))
             draft [at_time "processing" 5; at_time "paid" 10]
             [at_time "pending" 60; at_time "cancelled" 70]
             (at_time "cancelled" 50)).
    + reflexivity.
    + repeat constructor; discriminate.
    + reflexivity.
Defined.
End OrderSave.

(** ** Checkout and stock *)

Section Checkout.
Import Products Orders Views.
Local Open Scope string_scope.

(** The view never compares the stock with the quantity: a cart with a
    single line for a variant is always turned into an order, and the
    variant is left with its old stock minus the quantity. *)
Lemma checkout_sole_item (env : Env) (req : Request) (db : Db)
    (cart : CartRow) (row : CartItemRow) (pk : N) (v : VariantRow)
    (pv p : Product) :
  first_cart db (user req) = Some cart ->
  item_rows db (cr_id cart) = [row] ->
  cir_variant row = Some pk ->
  variant_table db !! pk = Some v ->
  product_table db !! vr_product v = Some pv ->
  product_table db !! cir_product row = Some p ->
  cir_quantity row <> 0%Z ->
  exists out : Outcome,
    post env req db = Ok out
    /\ response out = RedirectOrderConfirmation (new_uuid env)
    /\ variant_stock (db_after out) pk = Some (vr_stock v - cir_quantity row)%Z
    /\ length (order_table (db_after out)) = S (length (order_table db)).
Proof.
  intros Hcart Hrows Hvar Hv Hpv Hp Hq.
  unfold post. rewrite Hcart.
  unfold load_cart. rewrite Hrows.
  assert (Hitem : forall db', product_table db' = product_table db ->
                    variant_table db' = variant_table db ->
                    load_item db' row =
                    Ok {| item_product := p;
                          item_variant :=
                            Some {| variant_id := pk; product := pv;
                                    size := vr_size v; color := vr_color v;
                                    stock := vr_stock v;
                                    additional_price := vr_additional_price v |};
                          quantity := cir_quantity row |}).
  { intros db' Hp' Hv'. unfold load_item, get_variant, get_product.
    rewrite Hvar, Hp', Hv', Hp, Hv. simpl. rewrite Hpv. reflexivity. }
  simpl. rewrite (Hitem db eq_refl eq_refl). simpl.
  rewrite bool_decide_eq_false_2 by (unfold total_items; simpl; lia).
  unfold item_rows in *. simpl. rewrite Hrows. simpl.
  unfold checkout_item. rewrite Hitem by reflexivity. simpl.
  eexists. split; [reflexivity|]. simpl.
  split; [reflexivity|]. split; [|reflexivity].
  unfold variant_stock. simpl. now rewrite lookup_insert_eq.
Qed.

(** C2. The first checkout, for exactly the remaining three units,
    succeeds and leaves the variant with stock 0.  The specification has the
    second checkout of the same variant fail with an insufficient-stock
    error and change nothing; the code has no such test: the second
    checkout succeeds as well, a second order is stored, and the stock
    of the variant and of the product goes to -3. *)
Theorem checkout_oversells :
  match post first_env (request_of 7) shop with
  | Raise _ => False
  | Ok first =>
      response first = RedirectOrderConfirmation 101
      /\ variant_stock (db_after first) 1 = Some 0%Z
      /\ length (order_table (db_after first)) = 1%nat
      /\ match post second_env (request_of 8) (db_after first) with
         | Raise _ => False
         | Ok second =>
             response second = RedirectOrderConfirmation 102
             /\ variant_stock (db_after second) 1 = Some (-3)%Z
             /\ product_stock (db_after second) 1 = Some (-3)%Z
             /\ length (order_table (db_after second)) = 2%nat
             /\ length (orderitem_table (db_after second)) = 2%nat
         end
  end.
Proof.
  vm_compute. repeat split.
Qed.
End Checkout.

(** ** Further properties of the price of a product *)

Section PriceBounds.
Import Decimal Products.
Local Open Scope Q_scope.

Lemma percent_as_product (x : Q) : x / 100 == x * (1 # 100).
Proof. field. Qed.

(** X1. With the values the validators admit (a base price of at least
    0, a percentage between 0 and 100) the current price lies between
    0 and the base price, so [savings] lies between 0 and the base
    price too. *)
Theorem current_price_bounds (p : Product) :
  0 <= base_price p ->
  0 <= discount_percentage p <= 100 ->
  (0 <= current_price p <= base_price p)
  /\ (0 <= savings p <= base_price p).
Proof.
  intros Hb [Hp0 Hp100].
  assert (H : 0 <= current_price p <= base_price p).
  { unfold current_price.
    destruct (gt (discount_percentage p) 0) eqn:Ep.
    - apply gt_true in Ep.
      assert (H0 : 0 <= 1 - discount_percentage p / 100).
      { rewrite percent_as_product. lra. }
      assert (H1 : 1 - discount_percentage p / 100 <= 1).
      { rewrite percent_as_product. lra. }
      split.
      + now apply Qmult_le_0_compat.
      + rewrite <- (Qmult_1_r (base_price p)) at 2.
        rewrite (Qmult_comm (base_price p) _), (Qmult_comm (base_price p) 1).
        apply Qmult_le_compat_r; assumption.
    - destruct (gt (discount_amount p) 0) eqn:Ea; [|lra].
      apply gt_true in Ea. rewrite py_max_Qmax. split.
      + apply Q.le_max_r.
      + apply Q.max_lub; lra. }
  split; [exact H|]. unfold savings. lra.
Qed.

Lemma current_price_bounds_witness :
  (0 <= current_price (shirt 100 20 5) <= 100)
  /\ (0 <= savings (shirt 100 20 5) <= 100).
Proof.
  apply (current_price_bounds (shirt 100 20 5)).
  - intros H; discriminate H.
  - split; intros H; discriminate H.
Defined.

(** X2. A product that is not on sale costs its base price; a product
    with a positive base price is on sale exactly when its current
    price is strictly below the base price. *)
Theorem on_sale_iff_cheaper (p : Product) :
  (is_on_sale p = false -> current_price p == base_price p)
  /\ (0 < base_price p ->
      (is_on_sale p = true <-> current_price p < base_price p)).
Proof.
  unfold is_on_sale, current_price.
  destruct (gt (discount_percentage p) 0) eqn:Ep; simpl.
  - apply gt_true in Ep. split; [discriminate|]. intros Hb.
    split; [intros _|reflexivity].
    assert (H : 1 - discount_percentage p / 100 < 1).
    { rewrite percent_as_product. lra. }
    rewrite <- (Qmult_1_r (base_price p)) at 2.
    now apply Qmult_lt_l.
  - destruct (gt (discount_amount p) 0) eqn:Ea; simpl.
    + apply gt_true in Ea. split; [discriminate|]. intros Hb.
      split; [intros _|reflexivity].
      rewrite py_max_Qmax. apply Q.max_lub_lt; lra.
    + split; [reflexivity|]. intros Hb. split; [discriminate|lra].
Qed.

Lemma on_sale_iff_cheaper_witness :
  current_price (shirt 100 0 0) == 100
  /\ current_price (shirt 100 0 30) < 100.
Proof.
  split.
  - apply (proj1 (on_sale_iff_cheaper (shirt 100 0 0))). reflexivity.
  - apply (proj2 (on_sale_iff_cheaper (shirt 100 0 30))); reflexivity.
Defined.
End PriceBounds.

(** ** Further properties of the cart totals *)

Section CartMore.
Import Decimal Products Orders.
Local Open Scope Q_scope.

Lemma py_sum_perm (xs ys : list Q) : xs ≡ₚ ys -> py_sum xs == py_sum ys.
Proof.
  induction 1 as [|x xs ys _ IH|x y xs|xs ys zs _ IH1 _ IH2].
  - reflexivity.
  - rewrite !py_sum_cons, IH. reflexivity.
  - rewrite !py_sum_cons. lra.
  - now rewrite IH1.
Qed.

Lemma foldl_Zadd_from (a : Z) (xs : list Z) :
  foldl Z.add a xs = (a + foldl Z.add 0 xs)%Z.
Proof.
  revert a. induction xs as [|y ys IH]; intros a; simpl; [lia|].
  rewrite (IH (a + y)%Z), (IH (0 + y)%Z). lia.
Qed.

Lemma sum_quantities_perm (xs ys : list Z) :
  xs ≡ₚ ys -> foldl Z.add 0%Z xs = foldl Z.add 0%Z ys.
Proof.
  induction 1 as [|x xs ys _ IH|x y xs|xs ys zs _ IH1 _ IH2]; simpl.
  - reflexivity.
  - rewrite (foldl_Zadd_from (0 + x)), (foldl_Zadd_from (0 + x) ys). lia.
  - rewrite (foldl_Zadd_from (0 + y + x)), (foldl_Zadd_from (0 + x + y)). lia.
  - congruence.
Qed.

Lemma shipping_of_subtotal (c1 c2 : Cart) :
  subtotal c1 == subtotal c2 -> shipping c1 = shipping c2.
Proof.
  intros H. unfold shipping, ge. now rewrite H.
Qed.

(** X3. The order in which [items.all()] returns the lines of a cart
    does not matter: carts whose lines are permutations of each other
    have the same number of items, subtotal, tax, shipping and total. *)
Theorem cart_totals_order_independent (c1 c2 : Cart) :
  items c1 ≡ₚ items c2 ->
  total_items c1 = total_items c2
  /\ subtotal c1 == subtotal c2
  /\ tax c1 == tax c2
  /\ shipping c1 == shipping c2
  /\ total c1 == total c2.
Proof.
  intros H.
  assert (Hs : subtotal c1 == subtotal c2).
  { unfold subtotal. apply py_sum_perm. now apply fmap_Permutation. }
  pose proof (shipping_of_subtotal c1 c2 Hs) as Hship.
  split; [|split; [exact Hs|split; [|split]]].
  - unfold total_items. apply sum_quantities_perm. now apply fmap_Permutation.
  - unfold tax. now rewrite Hs.
  - now rewrite Hship.
  - unfold total, tax. rewrite Hship, Hs. reflexivity.
Qed.

Lemma cart_totals_order_independent_witness :
  total_items
    {| cart_id := 1; cart_user := None; session_key := None;
       items := [two_shirts; one_cheap_shirt] |}
  = total_items
      {| cart_id := 2; cart_user := None; session_key := None;
         items := [one_cheap_shirt; two_shirts] |}.
Proof.
  apply (cart_totals_order_independent
           {| cart_id := 1; cart_user := None; session_key := None;
              items := [two_shirts; one_cheap_shirt] |}
           {| cart_id := 2; cart_user := None; session_key := None;
              items := [one_cheap_shirt; two_shirts] |}).
  simpl. apply perm_swap.
Defined.

(** X4. A cart without lines has no items, subtotal 0 and tax 0, and
    is still charged the flat shipping fee: its total is 5. *)
Theorem empty_cart_totals (c : Cart) :
  items c = [] ->
  total_items c = 0%Z /\ subtotal c == 0 /\ tax c == 0
  /\ shipping c == 5 /\ total c == 5.
Proof.
  intros H. unfold total, tax, shipping, subtotal, total_items.
  rewrite H. simpl. repeat split.
Qed.

Lemma empty_cart_totals_witness :
  total {| cart_id := 1; cart_user := None; session_key := None;
           items := [] |} == 5.
Proof.
  apply (empty_cart_totals
           {| cart_id := 1; cart_user := None; session_key := None;
              items := [] |}).
  reflexivity.
Defined.

(** X5. The total is not monotone around the free-shipping threshold:
    a cart below a subtotal of 50 costs more than any cart that has
    reached 50 with a subtotal less than 50/11 above it. *)
Theorem total_drops_at_free_shipping (c1 c2 : Cart) :
  subtotal c1 < 50 -> 50 <= subtotal c2 ->
  subtotal c2 < subtotal c1 + (50 # 11) ->
  subtotal c1 < subtotal c2 /\ total c2 < total c1.
Proof.
  intros H1 H2 H3. split; [lra|].
  unfold total, tax.
  rewrite (shipping_flat c1 H1), (shipping_free c2 H2). lra.
Qed.

Lemma total_drops_at_free_shipping_witness :
  total (one_line_cart {| item_product := shirt 50 0 0;
                          item_variant := None; quantity := 1 |})
  < total (one_line_cart {| item_product := shirt 49 0 0;
                            item_variant := None; quantity := 1 |}).
Proof.
  apply (total_drops_at_free_shipping
           (one_line_cart {| item_product := shirt 49 0 0;
                             item_variant := None; quantity := 1 |})
           (one_line_cart {| item_product := shirt 50 0 0;
                             item_variant := None; quantity := 1 |})).
  - reflexivity.
  - intros H; discriminate H.
  - reflexivity.
Defined.
End CartMore.

(** ** Further properties of coupons *)

Section CouponMore.
Import Decimal Orders.
Local Open Scope Q_scope.

Lemma percentage_share (s v : Q) :
  0 <= s -> 0 <= v <= 100 -> 0 <= s * (v / 100) <= s.
Proof.
  intros Hs [Hv0 Hv100].
  assert (H0 : 0 <= v / 100) by (rewrite percent_as_product; lra).
  assert (H1 : v / 100 <= 1) by (rewrite percent_as_product; lra).
  split.
  - now apply Qmult_le_0_compat.
  - rewrite <- (Qmult_1_r s) at 2.
    rewrite (Qmult_comm s _), (Qmult_comm s 1).
    now apply Qmult_le_compat_r.
Qed.

(** X6. For a subtotal of at least 0 the discount lies between 0 and
    the subtotal, both for a percentage coupon whose value is between 0
    and 100 and for any other coupon whose value is at least 0. *)
Theorem calculate_discount_bounds (c : Coupon) (s : Q) :
  0 <= s ->
  (discount_type c = "percentage"%string /\ 0 <= discount_value c <= 100)
  \/ (discount_type c <> "percentage"%string /\ 0 <= discount_value c) ->
  0 <= calculate_discount c s <= s.
Proof.
  intros Hs Hc.
  destruct (Qlt_le_dec s (minimum_purchase c)) as [Hlt|Hge].
  - rewrite calculate_discount_below by exact Hlt. lra.
  - destruct Hc as [[Ht Hv]|[Ht Hv]].
    + rewrite calculate_discount_percentage by (assumption || lra).
      now apply percentage_share.
    + rewrite calculate_discount_other by (assumption || lra).
      rewrite py_min_Qmin. split.
      * apply Q.min_glb; assumption.
      * apply Q.le_min_r.
Qed.

Lemma calculate_discount_bounds_witness :
  0 <= calculate_discount (coupon "percentage" 25 30 None 0 true) 40 <= 40.
Proof.
  apply calculate_discount_bounds.
  - intros H; discriminate H.
  - left. split; [reflexivity|]. split; intros H; discriminate H.
Defined.

(** X7. For a coupon whose value is at least 0, a larger subtotal never
    earns a smaller discount (subtotals of at least 0). *)
Theorem calculate_discount_monotone (c : Coupon) (s1 s2 : Q) :
  0 <= discount_value c -> 0 <= s1 -> s1 <= s2 ->
  calculate_discount c s1 <= calculate_discount c s2.
Proof.
  intros Hv H1 H12.
  assert (Hnonneg : forall s, 0 <= s -> 0 <= calculate_discount c s).
  { intros s Hs. unfold calculate_discount.
    destruct (lt s (minimum_purchase c)); [lra|].
    case_bool_decide.
    - apply Qmult_le_0_compat; [exact Hs|].
      rewrite percent_as_product. lra.
    - rewrite py_min_Qmin. apply Q.min_glb; assumption. }
  destruct (Qlt_le_dec s1 (minimum_purchase c)) as [Hlt|Hge].
  - rewrite (calculate_discount_below c s1 Hlt). apply Hnonneg. lra.
  - destruct (decide (discount_type c = "percentage"%string)) as [Ht|Ht].
    + rewrite !calculate_discount_percentage by (assumption || lra).
      apply Qmult_le_compat_r; [exact H12|].
      rewrite percent_as_product. lra.
    + rewrite !calculate_discount_other by (assumption || lra).
      rewrite !py_min_Qmin. apply Q.min_glb.
      * apply Q.le_min_l.
      * apply Qle_trans with s1; [apply Q.le_min_r|exact H12].
Qed.

Lemma calculate_discount_monotone_witness :
  calculate_discount (coupon "fixed" 10 30 None 0 true) 20
  <= calculate_discount (coupon "fixed" 10 30 None 0 true) 40.
Proof.
  apply calculate_discount_monotone; intros H; discriminate H.
Defined.
End CouponMore.

Section CouponWindow.
Import Orders.
Local Open Scope Z_scope.

(** X8. The instants at which a coupon is valid form an interval: a
    coupon valid at two instants is valid at every instant between
    them. *)
Theorem is_valid_between (c : Coupon) (t1 t t2 : Z) :
  is_valid t1 c = true -> is_valid t2 c = true -> t1 <= t <= t2 ->
  is_valid t c = true.
Proof.
  rewrite !is_valid_true_iff.
  intros (Ha & H1 & Hu) (_ & H2 & _) Ht.
  split; [exact Ha|]. split; [lia|exact Hu].
Qed.

Lemma is_valid_between_witness :
  is_valid 150 (coupon "fixed" 10%Q 0%Q (Some 5) 2 true) = true.
Proof.
  apply (is_valid_between _ 100 150 200); [reflexivity|reflexivity|lia].
Defined.

(** X9. Use only ever closes a coupon: of two coupons that differ in
    [usage_count] alone, the one used less is valid whenever the one
    used more is. *)
Theorem is_valid_less_used (c c' : Coupon) (now : Z) :
  is_active c = is_active c' ->
  valid_from c = valid_from c' -> valid_to c = valid_to c' ->
  usage_limit c = usage_limit c' ->
  usage_count c <= usage_count c' ->
  is_valid now c' = true -> is_valid now c = true.
Proof.
  intros Ha Hf Ht Hl Hc. rewrite !is_valid_true_iff.
  unfold usage_open. rewrite Ha, Hf, Ht, Hl.
  intros (H1 & H2 & H3). split; [exact H1|]. split; [exact H2|].
  destruct (usage_limit c'); [|exact I]. lia.
Qed.

Lemma is_valid_less_used_witness :
  is_valid 150 (coupon "fixed" 10%Q 0%Q (Some 5) 2 true) = true.
Proof.
  apply (is_valid_less_used _ (coupon "fixed" 10%Q 0%Q (Some 5) 4 true));
    try reflexivity.
  simpl. lia.
Defined.
End CouponWindow.

(** ** Further properties of the role model *)

Section RoleOrder.
Import Accounts.
Local Open Scope string_scope.

Lemma rank_nonneg (r : string) : (0 <= rank r)%Z.
Proof.
  unfold rank, role_hierarchy. simpl.
  repeat (rewrite lookup_insert; case_decide; simpl; [lia|]).
  rewrite lookup_empty. simpl. lia.
Qed.

Lemma can_delete_user_closed_form (actor target : User) :
  can_delete_user actor target
  = is_staff_member actor
    && bool_decide (rank (role target) < rank (role actor))%Z.
Proof.
  unfold can_delete_user.
  destruct (is_staff_member actor); simpl; [|reflexivity].
  destruct (is_admin target && negb (is_superuser actor)) eqn:E.
  - apply andb_true_iff in E as [E _].
    apply bool_decide_eq_true in E. rewrite E, rank_admin.
    pose proof (rank_le_admin (role actor)).
    symmetry. apply bool_decide_eq_false. lia.
  - repeat case_bool_decide; (reflexivity || lia).
Qed.

(** X10. [can_delete_user] is true exactly when the actor has a staff
    role and the target's rank is strictly below the actor's.  The
    superuser flag never changes the answer, and nobody, superuser or
    not, may delete an administrator. *)
Theorem can_delete_user_iff_rank (actor target : User) :
  (can_delete_user actor target = true <->
     role actor ∈ ["admin"; "manager"; "employee"]
     /\ (rank (role target) < rank (role actor))%Z)
  /\ (forall other : User,
        role other = role actor ->
        can_delete_user other target = can_delete_user actor target)
  /\ (role target = "admin" -> can_delete_user actor target = false).
Proof.
  split; [|split].
  - rewrite can_delete_user_closed_form, andb_true_iff.
    unfold is_staff_member. now rewrite !bool_decide_eq_true.
  - intros other H. rewrite !can_delete_user_closed_form.
    unfold is_staff_member. now rewrite H.
  - intros H. rewrite can_delete_user_closed_form, H, rank_admin.
    pose proof (rank_le_admin (role actor)).
    rewrite (bool_decide_eq_false_2 (3 < _)%Z) by lia.
    apply andb_false_r.
Qed.

Lemma can_delete_user_iff_rank_witness :
  can_delete_user (member 1 "admin" true) (member 2 "admin" false) = false.
Proof.
  apply (proj2 (proj2 (can_delete_user_iff_rank (member 1 "admin" true)
                         (member 2 "admin" false)))).
  reflexivity.
Defined.

(** X11. "May delete" is a strict order on users: nobody may delete
    themselves, two users never may delete each other, and if [a] may
    delete [b] and [b] may delete [c] then [a] may delete [c]. *)
Theorem can_delete_user_strict_order (a b c : User) :
  can_delete_user a a = false
  /\ (can_delete_user a b = true -> can_delete_user b a = false)
  /\ (can_delete_user a b = true -> can_delete_user b c = true ->
      can_delete_user a c = true).
Proof.
  rewrite !can_delete_user_closed_form.
  split; [|split].
  - rewrite (bool_decide_eq_false_2 (_ < _)%Z) by lia. apply andb_false_r.
  - rewrite andb_true_iff, bool_decide_eq_true. intros [_ H].
    rewrite (bool_decide_eq_false_2 (_ < _)%Z) by lia. apply andb_false_r.
  - rewrite !andb_true_iff, !bool_decide_eq_true.
    intros [Ha Hab] [_ Hbc]. split; [exact Ha|lia].
Qed.

Lemma can_delete_user_strict_order_witness :
  can_delete_user (member 2 "employee" false) (member 1 "admin" true) = false
  /\ can_delete_user (member 1 "admin" true) (member 3 "customer" false)
     = true.
Proof.
  pose proof (can_delete_user_strict_order (member 1 "admin" true)
                (member 2 "employee" false) (member 3 "customer" false))
    as (_ & Hasym & Htrans).
  split.
  - apply Hasym. reflexivity.
  - apply Htrans; reflexivity.
Defined.

(** X12. Editing is deleting plus self-service for staff: whoever may
    delete a user may edit that user, for two different ids the two
    checks agree, and only an actor with a staff role may edit at
    all. *)
Theorem can_edit_user_vs_delete (actor target : User) :
  (can_delete_user actor target = true -> can_edit_user actor target = true)
  /\ (id actor <> id target ->
      can_edit_user actor target = can_delete_user actor target)
  /\ (can_edit_user actor target = true ->
      role actor ∈ ["admin"; "manager"; "employee"]).
Proof.
  unfold can_edit_user.
  split; [|split].
  - intros H. destruct (is_staff_member actor) eqn:E; simpl.
    + now case_bool_decide.
    + rewrite can_delete_user_closed_form, E in H. discriminate H.
  - intros H. rewrite (bool_decide_eq_false_2 _ H).
    destruct (is_staff_member actor) eqn:E; simpl; [reflexivity|].
    now rewrite can_delete_user_closed_form, E.
  - destruct (is_staff_member actor) eqn:E; simpl; [|discriminate].
    intros _. now apply bool_decide_eq_true in E.
Qed.

Lemma can_edit_user_vs_delete_witness :
  can_edit_user (member 1 "manager" false) (member 2 "employee" false) = true
  /\ can_edit_user (member 2 "employee" false) (member 1 "manager" false)
     = can_delete_user (member 2 "employee" false)
         (member 1 "manager" false).
Proof.
  split.
  - apply (proj1 (can_edit_user_vs_delete (member 1 "manager" false)
                    (member 2 "employee" false))).
    reflexivity.
  - apply (proj1 (proj2 (can_edit_user_vs_delete (member 2 "employee" false)
                           (member 1 "manager" false)))).
    discriminate.
Defined.
End RoleOrder.

Section PermissionMatrix.
Import Accounts.
Local Open Scope string_scope.

Lemma matrix_manager :
  permission_matrix !! "manager"
  = Some [ "products.add_product"; "products.change_product";
           "products.view_product"; "orders.view_order";
           "orders.change_order"; "accounts.view_user";
           "accounts.add_user" ].
Proof. reflexivity. Qed.

Lemma matrix_employee :
  permission_matrix !! "employee"
  = Some [ "products.view_product"; "orders.view_order";
           "orders.change_order"; "accounts.view_user" ].
Proof. reflexivity. Qed.

Lemma matrix_customer :
  permission_matrix !! "customer"
  = Some [ "orders.add_order"; "orders.view_order" ].
Proof. reflexivity. Qed.

Lemma has_perm_plain (backend : User -> string -> bool) (u : User)
    (perm : string) (perms : list string) :
  is_superuser u = false -> role u <> "admin" ->
  permission_matrix !! role u = Some perms ->
  has_perm backend u perm = bool_decide (perm ∈ perms).
Proof.
  intros Hs Ha Hm. unfold has_perm, is_admin.
  now rewrite Hs, (bool_decide_eq_false_2 _ Ha), Hm.
Qed.

(** X13. Every permission an employee holds through the matrix is held
    by a manager as well; the matrix does not grow with the rank from
    the customer on, though: a customer may add orders, a manager who is
    not a superuser may not. *)
Theorem manager_holds_employee_permissions
    (backend : User -> string -> bool) (e m c : User) (perm : string) :
  role e = "employee" -> is_superuser e = false ->
  role m = "manager" -> role c = "customer" ->
  (has_perm backend e perm = true -> has_perm backend m perm = true)
  /\ has_perm backend c "orders.add_order" = true
  /\ (is_superuser m = false ->
      has_perm backend m "orders.add_order" = false).
Proof.
  intros He Hse Hm Hc. split; [|split].
  - rewrite (has_perm_plain backend e perm _ Hse)
      by (rewrite He; (discriminate || apply matrix_employee)).
    rewrite bool_decide_eq_true. intros Hin.
    destruct (is_superuser m) eqn:Hsm.
    + now apply has_perm_superuser.
    + rewrite (has_perm_plain backend m perm _ Hsm)
        by (rewrite Hm; (discriminate || apply matrix_manager)).
      apply bool_decide_eq_true.
      rewrite !elem_of_cons in Hin. rewrite !elem_of_cons.
      intuition.
  - destruct (is_superuser c) eqn:Hsc.
    + now apply has_perm_superuser.
    + now rewrite (has_perm_plain backend c _ _ Hsc)
        by (rewrite Hc; (discriminate || apply matrix_customer)).
  - intros Hsm.
    now rewrite (has_perm_plain backend m _ _ Hsm)
      by (rewrite Hm; (discriminate || apply matrix_manager)).
Qed.

Lemma manager_holds_employee_permissions_witness :
  has_perm (fun _ _ => false) (member 2 "manager" false) "orders.view_order"
  = true.
Proof.
  apply (proj1 (manager_holds_employee_permissions (fun _ _ => false)
                  (member 1 "employee" false) (member 2 "manager" false)
                  (member 3 "customer" false) "orders.view_order"
                  eq_refl eq_refl eq_refl eq_refl)).
  reflexivity.
Defined.

(** X14. For a manager, employee or customer who is not a superuser the
    matrix is the whole answer: Django's own backends are never asked,
    and no permission outside the eight strings of the matrix, such as
    deleting a product, is granted. *)
Theorem has_perm_matrix_is_closed (u : User) (perm : string) :
  is_superuser u = false ->
  role u ∈ ["manager"; "employee"; "customer"] ->
  (forall b1 b2 : User -> string -> bool,
      has_perm b1 u perm = has_perm b2 u perm)
  /\ (forall b : User -> string -> bool,
        has_perm b u perm = true -> perm ∈ matrix_permissions)
  /\ (forall b : User -> string -> bool,
        has_perm b u "products.delete_product" = false).
Proof.
  intros Hs Hr.
  assert (Hm : exists perms,
             role u <> "admin"
             /\ permission_matrix !! role u = Some perms
             /\ perms ⊆ matrix_permissions).
  { rewrite !elem_of_cons in Hr.
    destruct Hr as [Hr|[Hr|[Hr|Hr]]]; [| | |now apply elem_of_nil in Hr];
      rewrite Hr; eexists; (split; [discriminate|]);
      (split; [reflexivity|]);
      apply (bool_decide_unpack _); vm_compute; exact I. }
  destruct Hm as (perms & Ha & Hm & Hsub).
  assert (Hdel : "products.delete_product" ∉ matrix_permissions).
  { apply (bool_decide_unpack _). vm_compute. exact I. }
  split; [|split].
  - intros b1 b2. now rewrite !(has_perm_plain _ u perm perms Hs Ha Hm).
  - intros b. rewrite (has_perm_plain b u perm perms Hs Ha Hm).
    rewrite bool_decide_eq_true. intros H. now apply Hsub.
  - intros b. rewrite (has_perm_plain b u _ perms Hs Ha Hm).
    apply bool_decide_eq_false. intros H. apply Hdel. now apply Hsub.
Qed.

Lemma has_perm_matrix_is_closed_witness :
  has_perm (fun _ _ => true) (member 2 "manager" false)
    "products.delete_product" = false.
Proof.
  apply (has_perm_matrix_is_closed (member 2 "manager" false)
           "products.delete_product" eq_refl).
  apply (bool_decide_unpack _). vm_compute. exact I.
Defined.

(** On the columns the record keeps, a second save writes what the
    first one wrote. *)
Lemma save_after_save_user (u : User) : save (save u) = save u.
Proof.
  destruct u as [i un fn ln em ph ad ci st co pc r stf sup].
  unfold save; simpl.
  destruct (bool_decide (r ∈ ["admin"; "manager"; "employee"])) eqn:E1;
    simpl; destruct (bool_decide (r = "admin")) eqn:E2;
    simpl; rewrite ?E1, ?E2; simpl; rewrite ?E1, ?E2; reflexivity.
Qed.

(** X15. A save that follows a save leaves the role and the two flags
    as the first save set them ([updated_at], which every save
    rewrites, is not among the columns of the record), and on a saved
    user [is_staff] agrees with [is_staff_member]. *)
Theorem second_save_keeps_flags (u : User) :
  role (save (save u)) = role (save u)
  /\ is_staff (save (save u)) = is_staff (save u)
  /\ is_superuser (save (save u)) = is_superuser (save u)
  /\ is_staff (save u) = is_staff_member (save u).
Proof.
  rewrite save_after_save_user.
  split; [reflexivity|]. split; [reflexivity|]. split; [reflexivity|].
  unfold is_staff_member. now rewrite save_role, save_is_staff.
Qed.

Lemma all_space_lstrip (s : string) :
  all_space s = true -> PyStr.lstrip s = "".
Proof.
  induction s as [|c s IH]; simpl; [reflexivity|].
  intros H. apply andb_true_iff in H as [Hc Hs]. rewrite Hc. now apply IH.
Qed.

Lemma all_space_app (s1 s2 : string) :
  all_space s1 = true -> all_space s2 = true -> all_space (s1 ++ s2) = true.
Proof.
  intros H1 H2. induction s1 as [|c s1 IH]; simpl in *; [exact H2|].
  apply andb_true_iff in H1 as [Hc Hs]. rewrite Hc. now apply IH.
Qed.

(** X16. When the first and the last name are blank (empty or
    whitespace only) [full_name] falls back to the username; and it is
    never empty for a user whose username is not empty. *)
Theorem full_name_fallback (u : User) :
  (all_space (first_name u) = true -> all_space (last_name u) = true ->
   full_name u = username u)
  /\ (username u <> "" -> full_name u <> "").
Proof.
  unfold full_name. split.
  - intros Hf Hl.
    assert (H : all_space (first_name u ++ " " ++ last_name u) = true).
    { apply all_space_app; [exact Hf|]. now apply (all_space_app " "). }
    unfold PyStr.strip. now rewrite (all_space_lstrip _ H).
  - intros Hu.
    destruct (PyStr.strip (first_name u ++ " " ++ last_name u)); simpl;
      [exact Hu|discriminate].
Qed.

Lemma full_name_fallback_witness :
  full_name
    {| id := 1; username := "sam"; first_name := " "; last_name := "";
       email := ""; phone_number := ""; address := ""; city := "";
       state := ""; country := ""; postal_code := ""; role := "customer";
       is_staff := false; is_superuser := false |} = "sam".
Proof.
  apply (proj1 (full_name_fallback
                  {| id := 1; username := "sam"; first_name := " ";
                     last_name := ""; email := ""; phone_number := "";
                     address := ""; city := ""; state := ""; country := "";
                     postal_code := ""; role := "customer";
                     is_staff := false; is_superuser := false |}));
    reflexivity.
Defined.
End PermissionMatrix.

(** ** Further properties of [Order] *)

Section OrderMore.
Import Decimal Orders OrderTotals.
Local Open Scope string_scope.

Ltac order_cases :=
  repeat match goal with
    | |- context [bool_decide ?P] => destruct (bool_decide_reflect P); simpl
    | |- context [unset ?t] => destruct t eqn:?; simpl
    end;
  simpl in *; try congruence.

(** On the columns the record keeps, a save that directly follows a
    save writes what the first one wrote. *)
Lemma save_after_save_order (t1 t2 : Z) (n1 n2 : string) (o : Order) :
  order_number o <> "" \/ n1 <> "" ->
  Orders.save t2 n2 (Orders.save t1 n1 o) = Orders.save t1 n1 o.
Proof.
  intros Hn.
  assert (Hnum : order_number (Orders.save t1 n1 o) <> "").
  { unfold Orders.save.
    destruct (order_number o) eqn:En; simpl.
    - destruct Hn as [Hn|Hn]; [congruence|].
      order_cases.
    - order_cases; rewrite En; discriminate. }
  remember (Orders.save t1 n1 o) as o1 eqn:Ho1.
  assert (Hst : forall m, status o1 = milestone_status m ->
                          milestone_at m o1 <> None).
  { intros m Hs Hnone. subst o1.
    assert (Hs' : status o = milestone_status m).
    { rewrite <- Hs. unfold Orders.save.
      destruct (str_falsy (order_number o)); simpl; order_cases. }
    destruct (milestone_at m o) as [t|] eqn:Hm.
    - rewrite (save_keeps_stamp m t1 n1 o t Hm) in Hnone. discriminate.
    - rewrite (save_sets_stamp m t1 n1 o Hs' Hm) in Hnone. discriminate. }
  clear Ho1. unfold Orders.save at 1.
  destruct (order_number o1) eqn:En; [congruence|]. simpl.
  pose proof (Hst Paid) as HP. pose proof (Hst Shipped) as HS.
  pose proof (Hst Delivered) as HD. pose proof (Hst Cancelled) as HC.
  simpl in HP, HS, HD, HC.
  order_cases; exfalso;
    solve [ apply HP; [assumption|reflexivity]
          | apply HS; [assumption|reflexivity]
          | apply HD; [assumption|reflexivity]
          | apply HC; [assumption|reflexivity] ].
Qed.

(** X17. A save that directly follows a save leaves the order number,
    the status and the four status timestamps as the first save set
    them, whatever the clock shows and whatever number would be
    generated, provided the order has a number by then (it had one, or
    the first generated number is not empty).  [updated_at], which
    every save rewrites, is not among the columns of the record. *)
Theorem second_save_keeps_columns (t1 t2 : Z) (n1 n2 : string) (o : Order) :
  order_number o <> "" \/ n1 <> "" ->
  let first := Orders.save t1 n1 o in
  let second := Orders.save t2 n2 first in
  order_number second = order_number first
  /\ status second = status first
  /\ paid_at second = paid_at first
  /\ shipped_at second = shipped_at first
  /\ delivered_at second = delivered_at first
  /\ cancelled_at second = cancelled_at first.
Proof.
  intros Hn first second. unfold second, first.
  rewrite (save_after_save_order t1 t2 n1 n2 o Hn).
  repeat split.
Qed.

Lemma second_save_keeps_columns_witness :
  paid_at (Orders.save 30 "VSO20260102ZZZZ"
             (Orders.save 10 "VSO20260101AB12" (set_status "paid" draft)))
  = paid_at (Orders.save 10 "VSO20260101AB12" (set_status "paid" draft))
  /\ order_number
       (Orders.save 30 "VSO20260102ZZZZ"
          (Orders.save 10 "VSO20260101AB12" (set_status "paid" draft)))
     = order_number
         (Orders.save 10 "VSO20260101AB12" (set_status "paid" draft)).
Proof.
  destruct (second_save_keeps_columns 10 30 "VSO20260101AB12"
              "VSO20260102ZZZZ" (set_status "paid" draft))
    as (Hnum & _ & Hpaid & _).
  - right. discriminate.
  - split; [exact Hpaid|exact Hnum].
Defined.

Lemma save_keeps_number (t : Z) (n : string) (o : Order) :
  order_number o <> "" -> order_number (Orders.save t n o) = order_number o.
Proof.
  intros H. unfold Orders.save.
  destruct (order_number o) eqn:En; [congruence|]. simpl.
  order_cases.
Qed.

Lemma saves_keep_number (o : Order) (es : list SaveEvent) :
  order_number o <> "" -> order_number (saves o es) = order_number o.
Proof.
  revert o. induction es as [|e es IH]; intros o H; simpl; [reflexivity|].
  assert (H1 : order_number (assign_and_save o e) = order_number o).
  { unfold assign_and_save. now rewrite save_keeps_number. }
  rewrite IH by (now rewrite H1). exact H1.
Qed.

(** X18. The order number is given once: the first save of an order
    without a number stores the generated number, which starts with
    the prefix VSO and so is not empty, and no later history of status
    changes and saves replaces it. *)
Theorem order_number_permanent (o : Order) (t : Z) (datestamp rnd : string)
    (es : list SaveEvent) :
  order_number o = "" ->
  let o1 := Orders.save t (generate_order_number datestamp rnd) o in
  order_number o1 = "VSO" ++ datestamp ++ rnd
  /\ order_number (saves o1 es) = order_number o1.
Proof.
  intros H o1.
  assert (H1 : order_number o1 = "VSO" ++ datestamp ++ rnd).
  { unfold o1, Orders.save. rewrite H. simpl. order_cases; reflexivity. }
  split; [exact H1|].
  apply saves_keep_number. rewrite H1. discriminate.
Qed.

Lemma order_number_permanent_witness :
  order_number
    (saves (Orders.save 10 (generate_order_number "20260101" "AB12") draft)
           [at_time "paid" 20; at_time "shipped" 30])
  = order_number
      (Orders.save 10 (generate_order_number "20260101" "AB12") draft).
Proof.
  apply (order_number_permanent draft 10 "20260101" "AB12"
           [at_time "paid" 20; at_time "shipped" 30]).
  reflexivity.
Defined.

Lemma save_keeps_snapshot (t : Z) (n : string) (o : Order) :
  order_id (Orders.save t n o) = order_id o
  /\ order_user (Orders.save t n o) = order_user o
  /\ customer (Orders.save t n o) = customer o
  /\ ship_to (Orders.save t n o) = ship_to o
  /\ pricing (Orders.save t n o) = pricing o
  /\ status (Orders.save t n o) = status o.
Proof.
  unfold Orders.save.
  destruct (str_falsy (order_number o)); simpl; order_cases; repeat split.
Qed.

(** X19. Saving never touches the snapshot: through any history of
    status changes and saves an order keeps its id, user, customer
    data, shipping address and amounts. *)
Theorem saves_keep_snapshot (o : Order) (es : list SaveEvent) :
  order_id (saves o es) = order_id o
  /\ order_user (saves o es) = order_user o
  /\ customer (saves o es) = customer o
  /\ ship_to (saves o es) = ship_to o
  /\ pricing (saves o es) = pricing o.
Proof.
  revert o. induction es as [|e es IH]; intros o; simpl; [repeat split|].
  destruct (IH (assign_and_save o e)) as (H1 & H2 & H3 & H4 & H5).
  rewrite H1, H2, H3, H4, H5. unfold assign_and_save.
  destruct (save_keeps_snapshot (ev_now e) (ev_number e)
              (set_status (ev_status e) o)) as (G1 & G2 & G3 & G4 & G5 & _).
  rewrite G1, G2, G3, G4, G5. repeat split.
Qed.

(** X20. Among the seven statuses, an order can be neither cancelled
    nor refunded exactly when it is cancelled or refunded already, and
    it can be both cancelled and refunded exactly when it is paid. *)
Theorem cancel_and_refund_by_status (o : Order) :
  status o ∈ STATUS_CHOICES ->
  (can_cancel o = false /\ can_refund o = false <->
     status o ∈ ["cancelled"; "refunded"])
  /\ (can_cancel o = true /\ can_refund o = true <-> status o = "paid").
Proof.
  unfold STATUS_CHOICES, can_cancel, can_refund. intros H.
  rewrite !elem_of_cons in H.
  destruct H as [H|[H|[H|[H|[H|[H|[H|H]]]]]]];
    [| | | | | | |now apply elem_of_nil in H];
    rewrite H; split; split;
    try (intros [H1 H2]; vm_compute in H1, H2; discriminate);
    try (intros H1; apply (bool_decide_pack _) in H1; vm_compute in H1;
         contradiction);
    try (intros _; split; reflexivity);
    try (intros H1; discriminate H1);
    try (intros _; apply (bool_decide_unpack _); vm_compute; exact I);
    try reflexivity.
Qed.

Lemma cancel_and_refund_by_status_witness :
  can_cancel (set_status "paid" draft) = true
  /\ can_refund (set_status "paid" draft) = true.
Proof.
  apply (proj2 (cancel_and_refund_by_status (set_status "paid" draft)
                  ltac:(apply (bool_decide_unpack _); vm_compute; exact I))).
  reflexivity.
Defined.
End OrderMore.

Section OrderTotalsFacts.
Import Decimal Products Orders OrderTotals.
Local Open Scope Q_scope.

Lemma calculate_totals_pricing (now : Z) (n : string)
    (lines : list OrderItem) (o : Order) :
  pricing (calculate_totals now n lines o)
  = let sub := py_sum (order_item_total_price <$> lines) in
    {| order_subtotal := sub; order_tax := sub * (1 # 10);
       order_shipping := if ge sub 50 then 0 else 5;
       order_discount := order_discount (pricing o);
       order_total := sub + sub * (1 # 10) + (if ge sub 50 then 0 else 5)
                      - order_discount (pricing o) |}.
Proof.
  unfold calculate_totals. cbv zeta.
  match goal with
  | |- pricing (Orders.save ?t ?m ?x) = _ =>
      destruct (save_keeps_snapshot t m x) as (_ & _ & _ & _ & H & _)
  end.
  rewrite H. reflexivity.
Qed.

(** X21. [calculate_totals] keeps the discount of the order.  When the
    lines add up to at least 0 and the discount is not more than that
    sum, the new total is at least 5; a discount of more than eleven
    tenths of the sum plus 5 makes the total negative. *)
Theorem calculate_totals_total_sign (now : Z) (n : string)
    (lines : list OrderItem) (o : Order) :
  let sub := py_sum (order_item_total_price <$> lines) in
  let o' := calculate_totals now n lines o in
  order_discount (pricing o') = order_discount (pricing o)
  /\ (0 <= sub -> order_discount (pricing o) <= sub ->
      5 <= order_total (pricing o'))
  /\ (sub * (11 # 10) + 5 < order_discount (pricing o) ->
      order_total (pricing o') < 0).
Proof.
  intros sub o'. unfold o'. rewrite calculate_totals_pricing.
  cbv zeta.
  cbn [order_subtotal order_tax order_shipping order_total order_discount].
  fold sub. split; [reflexivity|].
  destruct (ge sub 50) eqn:E.
  - apply ge_true in E. split; intros; lra.
  - apply ge_false in E. split; intros; lra.
Qed.

Lemma calculate_totals_total_sign_witness :
  5 <= order_total
         (pricing (calculate_totals 10 "VSO20260101AB12" [order_line 80 2]
                     (draft_with_discount 100)))
  /\ order_total
       (pricing (calculate_totals 10 "VSO20260101AB12" [order_line 80 2]
                   (draft_with_discount 500))) < 0.
Proof.
  split.
  - apply (proj1 (proj2 (calculate_totals_total_sign 10 "VSO20260101AB12"
                           [order_line 80 2] (draft_with_discount 100))));
      intros H; discriminate H.
  - apply (proj2 (proj2 (calculate_totals_total_sign 10 "VSO20260101AB12"
                           [order_line 80 2] (draft_with_discount 500)))).
    reflexivity.
Defined.

Lemma snapshot_sum (lines : list OrderItem) (its : list CartItem) :
  Forall2 (fun line item =>
             oi_unit_price line == unit_price item
             /\ oi_quantity line = quantity item
             /\ oi_discount_amount line == 0) lines its ->
  py_sum (order_item_total_price <$> lines) == py_sum (total_price <$> its).
Proof.
  induction 1 as [|line item lines its (Hp & Hq & Hd) _ IH]; [reflexivity|].
  rewrite !fmap_cons, !py_sum_cons, IH.
  unfold order_item_total_price, total_price. rewrite Hp, Hq, Hd. lra.
Qed.

(** X22. Recalculating an order agrees with the cart it came from:
    when every line of the order carries the unit price and quantity of
    the corresponding cart line and no line discount, and the order has
    no discount, [calculate_totals] stores the subtotal, tax, shipping
    and total of the cart. *)
Theorem calculate_totals_matches_cart (now : Z) (n : string)
    (lines : list OrderItem) (o : Order) (cart : Cart) :
  Forall2 (fun line item =>
             oi_unit_price line == unit_price item
             /\ oi_quantity line = quantity item
             /\ oi_discount_amount line == 0) lines (items cart) ->
  order_discount (pricing o) == 0 ->
  let p := pricing (calculate_totals now n lines o) in
  order_subtotal p == subtotal cart
  /\ order_tax p == tax cart
  /\ order_shipping p == shipping cart
  /\ order_total p == total cart.
Proof.
  intros Hlines Hd p. unfold p. rewrite calculate_totals_pricing.
  cbv zeta. cbn [order_subtotal order_tax order_shipping order_total].
  pose proof (snapshot_sum lines (items cart) Hlines) as Hs.
  fold (subtotal cart) in Hs.
  unfold total, tax.
  destruct (ge (py_sum (order_item_total_price <$> lines)) 50) eqn:E.
  - apply ge_true in E. rewrite (shipping_free cart) by lra.
    split; [exact Hs|]. split; [lra|]. split; lra.
  - apply ge_false in E. rewrite (shipping_flat cart) by lra.
    split; [exact Hs|]. split; [lra|]. split; lra.
Qed.

Lemma calculate_totals_matches_cart_witness :
  order_total
    (pricing (calculate_totals 10 "VSO20260101AB12" [order_line 80 2] draft))
  == total (one_line_cart two_shirts).
Proof.
  apply (calculate_totals_matches_cart 10 "VSO20260101AB12"
           [order_line 80 2] draft (one_line_cart two_shirts)).
  - constructor; [|constructor].
    split; [reflexivity|]. split; reflexivity.
  - reflexivity.
Defined.
End OrderTotalsFacts.

(** ** Further properties of [CheckoutView.post] *)

Section CheckoutMore.
Import Products Orders Views.
Local Open Scope string_scope.

Lemma bind_ok {A B : Type} (m : result A) (f : A -> result B) (b : B) :
  m ≫= f = Ok b -> exists a, m = Ok a /\ f a = Ok b.
Proof.
  destruct m as [a|e]; simpl; [|discriminate]. intros H. now exists a.
Qed.

Lemma load_items_nil (db : Db) : load_items db [] = Ok [].
Proof. reflexivity. Qed.

Lemma load_cart_id (db : Db) (row : CartRow) (cart : Cart) :
  load_cart db row = Ok cart -> cart_id cart = cr_id row.
Proof.
  unfold load_cart. intros H. apply bind_ok in H as (its & _ & H).
  injection H as <-. reflexivity.
Qed.

(** X23. Without a cart, or with a cart that has no lines, the checkout
    changes nothing in the database: it answers with the warning and
    the redirect to the product list. *)
Theorem checkout_without_lines (env : Env) (req : Request) (db : Db) :
  first_cart db (user req) = None
  \/ (exists row, first_cart db (user req) = Some row
                  /\ item_rows db (cr_id row) = []) ->
  post env req db
  = Ok {| response := RedirectProductList;
          message := ("warning", "Your cart is empty.");
          db_after := db |}.
Proof.
  intros [H|(row & H & Hrows)]; unfold post; rewrite H; [reflexivity|].
  unfold load_cart. rewrite Hrows. reflexivity.
Qed.

Lemma checkout_without_lines_witness :
  post first_env (request_of 9) shop
  = Ok {| response := RedirectProductList;
          message := ("warning", "Your cart is empty.");
          db_after := shop |}.
Proof.
  apply checkout_without_lines. left. reflexivity.
Defined.

(** What one pass of the loop leaves alone and what it adds. *)
Lemma checkout_item_frame (order : N) (db db' : Db) (row : CartItemRow) :
  checkout_item order db row = Ok db' ->
  cart_table db' = cart_table db
  /\ cartitem_table db' = cartitem_table db
  /\ order_table db' = order_table db
  /\ length (orderitem_table db') = S (length (orderitem_table db)).
Proof.
  unfold checkout_item. intros H. apply bind_ok in H as (item & _ & H).
  injection H as <-.
  destruct (item_variant item); simpl; rewrite length_app; simpl;
    repeat split; lia.
Qed.

Lemma checkout_items_frame (order : N) (rows : list CartItemRow)
    (db db' : Db) :
  checkout_items order db rows = Ok db' ->
  cart_table db' = cart_table db
  /\ cartitem_table db' = cartitem_table db
  /\ order_table db' = order_table db
  /\ length (orderitem_table db')
     = (length (orderitem_table db) + length rows)%nat.
Proof.
  revert db. induction rows as [|row rows IH]; intros db H; simpl in *.
  - injection H as <-. repeat split. lia.
  - apply bind_ok in H as (db1 & H1 & H).
    apply checkout_item_frame in H1 as (A1 & A2 & A3 & A4).
    apply IH in H as (B1 & B2 & B3 & B4).
    rewrite B1, B2, B3, B4, A1, A2, A3, A4. repeat split. lia.
Qed.

(** The shape of every successful checkout. *)
Lemma post_success (env : Env) (req : Request) (db : Db) (out : Outcome)
    (oid : N) :
  post env req db = Ok out ->
  response out = RedirectOrderConfirmation oid ->
  exists (row : CartRow) (cart : Cart) (db1 : Db),
    first_cart db (user req) = Some row
    /\ load_cart db row = Ok cart
    /\ total_items cart <> 0%Z
    /\ checkout_items (new_uuid env)
         (with_orders (create_order env req cart :: order_table db) db)
         (item_rows db (cr_id row)) = Ok db1
    /\ oid = new_uuid env
    /\ message out = ("success", "Order placed successfully!")
    /\ db_after out = clear (cr_id row) db1.
Proof.
  unfold post. intros H Hresp.
  destruct (first_cart db (user req)) as [row|] eqn:Hrow.
  2:{ injection H as <-. discriminate Hresp. }
  apply bind_ok in H as (cart & Hcart & H).
  case_bool_decide as Hzero.
  { injection H as <-. discriminate Hresp. }
  apply bind_ok in H as (db1 & Hloop & H).
  injection H as <-. simpl in Hresp. injection Hresp as <-.
  pose proof (load_cart_id db row cart Hcart) as Hid.
  exists row, cart, db1. rewrite Hid in *.
  repeat split; try assumption.
Qed.

Lemma filter_in_then_out (cart : N) (rows : list CartItemRow) :
  filter (fun row => cir_cart row = cart)
         (filter (fun row => cir_cart row <> cart) rows) = [].
Proof.
  induction rows as [|row rows IH]; [reflexivity|].
  rewrite (filter_cons (fun row => cir_cart row <> cart)).
  destruct (decide (cir_cart row <> cart)) as [Hne|Heq]; [|exact IH].
  rewrite filter_cons. destruct (decide (cir_cart row = cart)); [|exact IH].
  contradiction.
Qed.

Lemma filter_other_then_out (cart other : N) (rows : list CartItemRow) :
  other <> cart ->
  filter (fun row => cir_cart row = other)
         (filter (fun row => cir_cart row <> cart) rows)
  = filter (fun row => cir_cart row = other) rows.
Proof.
  intros Hne. induction rows as [|row rows IH]; [reflexivity|].
  rewrite (filter_cons (fun row => cir_cart row <> cart)).
  destruct (decide (cir_cart row <> cart)) as [H|H].
  - rewrite !(filter_cons (fun row => cir_cart row = other)).
    destruct (decide (cir_cart row = other)); now rewrite IH.
  - rewrite (filter_cons (fun row => cir_cart row = other)).
    destruct (decide (cir_cart row = other)) as [H'|H']; [|exact IH].
    exfalso. apply H. congruence.
Qed.

(** X24. [Cart.clear] removes the lines of that cart and nothing else:
    afterwards the cart has no lines, every other cart has the lines it
    had, the cart itself and all other tables are as before, and
    clearing again changes nothing. *)
Theorem clear_only_that_cart (cart : N) (db : Db) :
  item_rows (clear cart db) cart = []
  /\ (forall other : N, other <> cart ->
        item_rows (clear cart db) other = item_rows db other)
  /\ cart_table (clear cart db) = cart_table db
  /\ product_table (clear cart db) = product_table db
  /\ variant_table (clear cart db) = variant_table db
  /\ order_table (clear cart db) = order_table db
  /\ clear cart (clear cart db) = clear cart db.
Proof.
  unfold item_rows, clear. simpl.
  split; [apply filter_in_then_out|].
  split; [intros other H; now apply filter_other_then_out|].
  repeat (split; [reflexivity|]).
  unfold with_cartitems. simpl. f_equal.
  induction (cartitem_table db) as [|row rows IH]; [reflexivity|].
  rewrite (filter_cons _ row).
  destruct (decide (cir_cart row <> cart)) as [H|H]; [|exact IH].
  rewrite filter_cons. destruct (decide (cir_cart row <> cart));
    [now rewrite IH|contradiction].
Qed.

Lemma clear_only_that_cart_witness :
  item_rows (clear 1 shop) 2 = item_rows shop 2.
Proof.
  apply (proj1 (proj2 (clear_only_that_cart 1 shop))). discriminate.
Defined.

(** X25. A successful checkout empties the cart it used and no other:
    that cart has no lines left, every other cart keeps its lines, the
    table of carts is unchanged, and one order line has been stored for
    each line the cart had. *)
Theorem checkout_empties_the_cart (env : Env) (req : Request) (db : Db)
    (out : Outcome) (oid : N) :
  post env req db = Ok out ->
  response out = RedirectOrderConfirmation oid ->
  exists row : CartRow,
    first_cart db (user req) = Some row
    /\ item_rows (db_after out) (cr_id row) = []
    /\ (forall other : N, other <> cr_id row ->
          item_rows (db_after out) other = item_rows db other)
    /\ cart_table (db_after out) = cart_table db
    /\ length (orderitem_table (db_after out))
       = (length (orderitem_table db)
          + length (item_rows db (cr_id row)))%nat.
Proof.
  intros H Hresp.
  destruct (post_success env req db out oid H Hresp)
    as (row & cart & db1 & Hrow & _ & _ & Hloop & _ & _ & Hdb).
  apply checkout_items_frame in Hloop as (A1 & A2 & A3 & A4).
  exists row. rewrite Hdb.
  destruct (clear_only_that_cart (cr_id row) db1) as (C1 & C2 & C3 & _).
  split; [exact Hrow|]. split; [exact C1|]. split; [|split].
  - intros other Hne. rewrite (C2 other Hne). unfold item_rows.
    now rewrite A2.
  - now rewrite C3, A1.
  - exact A4.
Qed.

Lemma checkout_empties_the_cart_witness :
  item_rows (db_after first_outcome) 1 = []
  /\ item_rows (db_after first_outcome) 2 = item_rows shop 2.
Proof.
  destruct (checkout_empties_the_cart first_env (request_of 7) shop
              first_outcome 101)
    as (row & Hrow & Hempty & Hothers & _).
  - vm_compute. reflexivity.
  - reflexivity.
  - vm_compute in Hrow. injection Hrow as <-.
    split; [exact Hempty|]. apply Hothers. discriminate.
Defined.

(** X26. A successful checkout puts exactly one new order on top of the
    order table.  It carries the UUID drawn for it and the generated
    number, belongs to the requesting user, is pending with no status
    timestamp, and has discount 0: no coupon is applied at checkout. *)
Theorem checkout_stores_pending_order (env : Env) (req : Request) (db : Db)
    (out : Outcome) (oid : N) :
  post env req db = Ok out ->
  response out = RedirectOrderConfirmation oid ->
  exists o : Order,
    order_table (db_after out) = o :: order_table db
    /\ order_id o = oid /\ oid = new_uuid env
    /\ order_number o = new_number env
    /\ order_user o = Some (Accounts.id (user req))
    /\ status o = "pending"
    /\ (paid_at o = None /\ shipped_at o = None
        /\ delivered_at o = None /\ cancelled_at o = None)
    /\ order_discount (pricing o) = 0%Q.
Proof.
  intros H Hresp.
  destruct (post_success env req db out oid H Hresp)
    as (row & cart & db1 & _ & _ & _ & Hloop & Hoid & _ & Hdb).
  apply checkout_items_frame in Hloop as (_ & _ & A3 & _).
  exists (create_order env req cart). rewrite Hdb, Hoid.
  split; [exact A3|].
  unfold create_order, Orders.save. simpl.
  do 5 (split; [reflexivity|]).
  split; [now repeat split|]. reflexivity.
Qed.

Lemma checkout_stores_pending_order_witness :
  exists o : Order,
    order_table (db_after first_outcome) = o :: order_table shop
    /\ status o = "pending" /\ order_discount (pricing o) = 0%Q.
Proof.
  destruct (checkout_stores_pending_order first_env (request_of 7) shop
              first_outcome 101)
    as (o & Ho & _ & _ & _ & _ & Hs & _ & Hd).
  - vm_compute. reflexivity.
  - reflexivity.
  - exists o. split; [exact Ho|]. split; [exact Hs|exact Hd].
Defined.

Lemma load_item_product (db : Db) (row : CartItemRow) (item : CartItem) :
  load_item db row = Ok item ->
  product_table db !! cir_product row = Some (item_product item)
  /\ quantity item = cir_quantity row.
Proof.
  unfold load_item, get_product. intros H.
  apply bind_ok in H as (p & Hp & H).
  apply bind_ok in H as (v & _ & H). injection H as <-. simpl.
  destruct (product_table db !! cir_product row); [|discriminate].
  injection Hp as ->. split; reflexivity.
Qed.

Lemma checkout_item_units (order : N) (db db' : Db) (row : CartItemRow) :
  pk_consistent db -> checkout_item order db row = Ok db' ->
  pk_consistent db' /\ forall pk : N, units db' pk = units db pk.
Proof.
  intros Hpk H. unfold checkout_item in H.
  apply bind_ok in H as (item & Hitem & H). injection H as <-.
  apply load_item_product in Hitem as [Hp _].
  pose proof (Hpk _ _ Hp) as Hid.
  match goal with
  | |- pk_consistent ?d /\ _ =>
      assert (Htab : product_table d
                     = <[cir_product row :=
                           sell (quantity item) (item_product item)]>
                         (product_table db))
        by (destruct (item_variant item); unfold save_product; simpl;
            rewrite Hid; reflexivity);
      generalize dependent d
  end.
  intros d Htab. unfold pk_consistent, units. rewrite Htab. split.
  - intros pk p. rewrite lookup_insert. case_decide.
    + intros [= <-]. simpl. congruence.
    + apply Hpk.
  - intros pk. rewrite lookup_insert.
    case_decide as Hk; [|reflexivity].
    subst pk. rewrite Hp. simpl. f_equal. lia.
Qed.

Lemma checkout_items_units (order : N) (rows : list CartItemRow)
    (db db' : Db) :
  pk_consistent db -> checkout_items order db rows = Ok db' ->
  pk_consistent db' /\ forall pk : N, units db' pk = units db pk.
Proof.
  revert db. induction rows as [|row rows IH]; intros db Hpk H; simpl in *.
  - injection H as <-. now split.
  - apply bind_ok in H as (db1 & H1 & H).
    destruct (checkout_item_units order db db1 row Hpk H1) as [Hpk1 Hu1].
    destruct (IH db1 Hpk1 H) as [Hpk' Hu'].
    split; [exact Hpk'|]. intros pk. now rewrite Hu', Hu1.
Qed.

Lemma post_cases (env : Env) (req : Request) (db : Db) (out : Outcome) :
  post env req db = Ok out ->
  db_after out = db \/ exists oid, response out = RedirectOrderConfirmation oid.
Proof.
  unfold post. intros H.
  destruct (first_cart db (user req)) as [row|].
  2:{ injection H as <-. now left. }
  apply bind_ok in H as (cart & _ & H).
  case_bool_decide.
  { injection H as <-. now left. }
  apply bind_ok in H as (db1 & _ & H). injection H as <-.
  right. eexists. reflexivity.
Qed.

(** X27. Checkout moves units from stock to sales and loses none: in a
    database that stores every product under its own key, each product
    has the same sum of [total_stock] and [sales_count] after a
    checkout as before, and products are still stored under their own
    keys. *)
Theorem checkout_conserves_units (env : Env) (req : Request) (db : Db)
    (out : Outcome) :
  pk_consistent db ->
  post env req db = Ok out ->
  pk_consistent (db_after out)
  /\ forall pk : N, units (db_after out) pk = units db pk.
Proof.
  intros Hpk H.
  destruct (post_cases env req db out H) as [Hsame|[oid Hresp]].
  - rewrite Hsame. now split.
  - destruct (post_success env req db out oid H Hresp)
      as (row & cart & db1 & _ & _ & _ & Hloop & _ & _ & Hdb).
    rewrite Hdb.
    apply checkout_items_units in Hloop as [Hpk1 Hu1]; [|exact Hpk].
    split; [exact Hpk1|exact Hu1].
Qed.

Lemma shop_pk_consistent : pk_consistent shop.
Proof.
  intros pk p H. unfold shop in H. simpl in H.
  apply lookup_singleton_Some in H as [<- <-]. reflexivity.
Qed.

Lemma checkout_conserves_units_witness :
  units (db_after first_outcome) 1 = Some 3%Z.
Proof.
  destruct (checkout_conserves_units first_env (request_of 7) shop
              first_outcome shop_pk_consistent) as [_ H].
  - vm_compute. reflexivity.
  - rewrite H. reflexivity.
Defined.
End CheckoutMore.

(** ** [Cart.merge_with] *)

Section Merge.
Import Orders Views CartOps.

Example merge_two_carts :
  cartitem_table (merge_with 1 3 two_carts)
  = [ {| cir_cart := 2; cir_product := 1; cir_variant := Some 1%N;
         cir_quantity := 5 |};
      {| cir_cart := 1; cir_product := 1; cir_variant := None;
         cir_quantity := 4 |};
      {| cir_cart := 1; cir_product := 1; cir_variant := Some 1%N;
         cir_quantity := 3 |} ].
Proof. vm_compute. reflexivity. Qed.
Lemma cart_quantity_shares (db : Db) (cart : N) :
  cart_quantity db cart = shares cart (cartitem_table db).
Proof.
  unfold cart_quantity, item_rows, shares.
  induction (cartitem_table db) as [|row rows IH]; [reflexivity|].
  rewrite filter_cons. simpl. unfold share at 1.
  destruct (decide (cir_cart row = cart)); [|lia].
  rewrite fmap_cons. simpl. rewrite foldl_Zadd_from. lia.
Qed.

Lemma shares_insert (cart : N) (rows : list CartItemRow) (i : nat)
    (old new : CartItemRow) :
  rows !! i = Some old ->
  shares cart (<[i := new]> rows)
  = (shares cart rows - share cart old + share cart new)%Z.
Proof.
  revert i. induction rows as [|row rows IH]; intros i H; [discriminate|].
  destruct i as [|i]; simpl in *.
  - injection H as ->. lia.
  - rewrite (IH i H). lia.
Qed.

Lemma shares_without (cart other : N) (rows : list CartItemRow) :
  cart <> other ->
  shares cart (filter (fun row => cir_cart row <> other) rows)
  = shares cart rows.
Proof.
  intros Hne. induction rows as [|row rows IH]; [reflexivity|].
  rewrite filter_cons.
  destruct (decide (cir_cart row <> other)) as [H|H]; simpl.
  - now rewrite IH.
  - rewrite IH. unfold share.
    destruct (decide (cir_cart row = cart)); [|lia].
    exfalso. apply H. congruence.
Qed.

Lemma filter_insert_frame (cart : N) (rows : list CartItemRow) (i : nat)
    (new : CartItemRow) :
  (forall old, rows !! i = Some old -> cir_cart old <> cart) ->
  cir_cart new <> cart ->
  filter (fun row => cir_cart row = cart) (<[i := new]> rows)
  = filter (fun row => cir_cart row = cart) rows.
Proof.
  revert i. induction rows as [|row rows IH]; intros i Hold Hnew;
    [reflexivity|].
  destruct i as [|i]; simpl.
  - rewrite !filter_cons.
    destruct (decide (cir_cart new = cart)); [contradiction|].
    destruct (decide (cir_cart row = cart)) as [H|H]; [|reflexivity].
    exfalso. now apply (Hold row).
  - rewrite !filter_cons. rewrite (IH i); [reflexivity| |exact Hnew].
    intros old H. now apply Hold.
Qed.

(** Each pass of the loop rewrites one position with a line of [self]. *)
Lemma merge_item_update (self : N) (db : Db) (entry : nat * CartItemRow) :
  exists (k : nat) (new : CartItemRow),
    merge_item self db entry
    = with_cartitems (<[k := new]> (cartitem_table db)) db
    /\ cir_cart new = self
    /\ ((exists existing,
            cartitem_table db !! k = Some existing
            /\ cir_cart existing = self
            /\ new = add_quantity (cir_quantity entry.2) existing)
        \/ (k = entry.1 /\ new = set_cart self entry.2)).
Proof.
  unfold merge_item.
  destruct (list_find _ (cartitem_table db)) as [[j existing]|] eqn:Hfind.
  - apply list_find_Some in Hfind as (Hj & (Hc & _ & _) & _).
    exists j, (add_quantity (cir_quantity entry.2) existing).
    split; [reflexivity|]. split; [exact Hc|].
    left. now exists existing.
  - exists entry.1, (set_cart self entry.2).
    split; [reflexivity|]. split; [reflexivity|]. now right.
Qed.
Lemma merge_fold_frame (self other cart : N)
    (entries : list (nat * CartItemRow)) (db : Db) :
  cart <> self -> cart <> other ->
  (forall entry x, entry ∈ entries ->
     cartitem_table db !! entry.1 = Some x ->
     cir_cart x = self \/ cir_cart x = other) ->
  item_rows (foldl (merge_item self) db entries) cart = item_rows db cart.
Proof.
  intros Hs Ho. revert db.
  induction entries as [|entry entries IH]; intros db Hinv; simpl;
    [reflexivity|].
  destruct (merge_item_update self db entry) as (k & new & Heq & Hnew & Hcase).
  rewrite Heq. rewrite IH.
  - unfold item_rows. simpl. apply filter_insert_frame; [|congruence].
    intros old Hold.
    destruct Hcase as [(existing & Hex & Hc & _)|[-> _]].
    + rewrite Hold in Hex. injection Hex as ->. congruence.
    + destruct (Hinv entry old) as [H|H];
        [apply list_elem_of_here|exact Hold|congruence|congruence].
  - intros entry' x Hin. simpl. rewrite list_lookup_insert_Some.
    intros [(_ & -> & _)|[_ Hx]]; [now left|].
    apply (Hinv entry' x); [now apply list_elem_of_further|exact Hx].
Qed.

Lemma merge_fold_tables (self : N) (entries : list (nat * CartItemRow))
    (db : Db) :
  cart_table (foldl (merge_item self) db entries) = cart_table db
  /\ product_table (foldl (merge_item self) db entries) = product_table db
  /\ variant_table (foldl (merge_item self) db entries) = variant_table db
  /\ order_table (foldl (merge_item self) db entries) = order_table db
  /\ orderitem_table (foldl (merge_item self) db entries)
     = orderitem_table db
  /\ length (cartitem_table (foldl (merge_item self) db entries))
     = length (cartitem_table db).
Proof.
  revert db. induction entries as [|entry entries IH]; intros db; simpl;
    [repeat split|].
  destruct (merge_item_update self db entry) as (k & new & Heq & _).
  destruct (IH (merge_item self db entry)) as (A1 & A2 & A3 & A4 & A5 & A6).
  rewrite A1, A2, A3, A4, A5, A6, Heq. simpl. rewrite length_insert.
  repeat split.
Qed.

Lemma merge_fold_quantity (self other : N)
    (entries : list (nat * CartItemRow)) (db : Db) :
  self <> other ->
  NoDup entries.*1 ->
  (forall entry, entry ∈ entries ->
     cartitem_table db !! entry.1 = Some entry.2
     /\ cir_cart entry.2 = other) ->
  shares self (cartitem_table (foldl (merge_item self) db entries))
  = (shares self (cartitem_table db) + read_quantity entries)%Z.
Proof.
  intros Hne. revert db.
  induction entries as [|entry entries IH]; intros db Hnd Hinv; simpl;
    [lia|].
  apply NoDup_cons in Hnd as [Hfresh Hnd].
  destruct (Hinv entry (list_elem_of_here _ _)) as [Hentry Hcart].
  destruct (merge_item_update self db entry) as (k & new & Heq & Hnew & Hcase).
  rewrite Heq. rewrite IH; [|exact Hnd|].
  - simpl.
    destruct Hcase as [(existing & Hex & Hc & ->)|[-> ->]].
    + rewrite (shares_insert _ _ _ existing) by exact Hex.
      unfold share, add_quantity. simpl.
      rewrite !decide_True by exact Hc. lia.
    + rewrite (shares_insert _ _ _ entry.2) by exact Hentry.
      unfold share, set_cart. simpl.
      rewrite decide_False by congruence.
      rewrite decide_True by reflexivity. lia.
  - intros entry' Hin. simpl.
    destruct (Hinv entry' (list_elem_of_further _ _ _ Hin)) as [H1 H2].
    split; [|exact H2].
    rewrite list_lookup_insert_ne; [exact H1|].
    destruct Hcase as [(existing & Hex & Hc & _)|[-> _]].
    + intros ->. rewrite H1 in Hex. injection Hex as <-. congruence.
    + intros Heq'. apply Hfresh. rewrite Heq'.
      apply list_elem_of_fmap. now exists entry'.
Qed.

Lemma indexed_rows_spec (db : Db) (cart : N) (entry : nat * CartItemRow) :
  entry ∈ indexed_rows db cart <->
  cartitem_table db !! entry.1 = Some entry.2 /\ cir_cart entry.2 = cart.
Proof.
  unfold indexed_rows. rewrite list_elem_of_filter, elem_of_lookup_imap.
  split.
  - intros (Hc & i & x & -> & Hi). now split.
  - intros [Hi Hc]. split; [exact Hc|].
    exists entry.1, entry.2. split; [now destruct entry|exact Hi].
Qed.

Lemma indexed_rows_NoDup (db : Db) (cart : N) :
  NoDup (indexed_rows db cart).*1.
Proof.
  apply NoDup_fmap_2_strong.
  - intros [i x] [j y] Hx Hy. simpl. intros <-.
    apply indexed_rows_spec in Hx as [Hx _].
    apply indexed_rows_spec in Hy as [Hy _]. simpl in *. congruence.
  - unfold indexed_rows. apply NoDup_filter. apply NoDup_alt.
    intros i j [k x]. rewrite !list_lookup_imap.
    destruct (cartitem_table db !! i); [|discriminate].
    destruct (cartitem_table db !! j); [|discriminate].
    simpl. congruence.
Qed.

Lemma read_quantity_indexed (cart : N) (rows : list CartItemRow)
    (g : nat -> nat) :
  read_quantity (filter (fun entry => cir_cart entry.2 = cart)
                        (imap (fun i x => (g i, x)) rows))
  = shares cart rows.
Proof.
  revert g. induction rows as [|row rows IH]; intros g; [reflexivity|].
  rewrite imap_cons, filter_cons. simpl. unfold share at 1.
  change (imap ((fun i x => (g i, x)) ∘ S) rows)
    with (imap (fun i x => ((g ∘ S) i, x)) rows).
  destruct (decide (cir_cart row = cart)); simpl; now rewrite IH.
Qed.
(** X28. Merging loses and invents no item: after [merge_with] of a
    different cart, the receiving cart holds as many items as the two
    carts held together. *)
Theorem merge_conserves_quantity (self other : N) (db : Db) :
  self <> other ->
  cart_quantity (merge_with self other db) self
  = (cart_quantity db self + cart_quantity db other)%Z.
Proof.
  intros Hne. rewrite !cart_quantity_shares.
  unfold merge_with, delete_cart, clear. simpl.
  rewrite shares_without by exact Hne.
  rewrite (merge_fold_quantity self other) by
    (exact Hne || apply indexed_rows_NoDup
     || (intros entry H; now apply indexed_rows_spec in H)).
  f_equal. unfold indexed_rows.
  change (imap pair (cartitem_table db))
    with (imap (fun i x => (id i, x)) (cartitem_table db)).
  apply read_quantity_indexed.
Qed.

Lemma merge_conserves_quantity_witness :
  cart_quantity (merge_with 1 3 two_carts) 1 = 7%Z.
Proof.
  rewrite (merge_conserves_quantity 1 3 two_carts); [reflexivity|].
  discriminate.
Defined.

Lemma filter_keeps_all (cart : N) (rows : list CartItemRow) :
  filter (fun row => cir_cart row = cart) rows = [] ->
  filter (fun row => cir_cart row <> cart) rows = rows.
Proof.
  induction rows as [|row rows IH]; [reflexivity|].
  rewrite !filter_cons.
  destruct (decide (cir_cart row = cart)) as [H|H]; [discriminate|].
  intros Hnil. rewrite decide_True by exact H. now rewrite IH.
Qed.

(** X29. [merge_with] spends the other cart and touches no third one:
    afterwards the other cart has no row and no lines (merging a cart
    into itself therefore deletes it with everything in it), every
    cart different from both keeps its lines and its row, products,
    variants and orders are unchanged, and merging a cart without
    lines changes no line at all. *)
Theorem merge_spends_other_cart (self other : N) (db : Db) :
  item_rows (merge_with self other db) other = []
  /\ cart_table (merge_with self other db)
     = filter (fun row => cr_id row <> other) (cart_table db)
  /\ (forall cart : N, cart <> self -> cart <> other ->
        item_rows (merge_with self other db) cart = item_rows db cart)
  /\ (product_table (merge_with self other db) = product_table db
      /\ variant_table (merge_with self other db) = variant_table db
      /\ order_table (merge_with self other db) = order_table db
      /\ orderitem_table (merge_with self other db) = orderitem_table db)
  /\ (item_rows db other = [] ->
      cartitem_table (merge_with self other db) = cartitem_table db).
Proof.
  destruct (merge_fold_tables self (indexed_rows db other) db)
    as (A1 & A2 & A3 & A4 & A5 & _).
  unfold merge_with, delete_cart.
  split; [|split; [|split; [|split]]].
  - apply (clear_only_that_cart other).
  - simpl. now rewrite A1.
  - intros cart Hs Ho.
    transitivity (item_rows (foldl (merge_item self) db
                               (indexed_rows db other)) cart).
    + apply (proj1 (proj2 (clear_only_that_cart other _)) cart Ho).
    + apply (merge_fold_frame self other); [exact Hs|exact Ho|].
      intros entry x Hin Hx. right.
      apply indexed_rows_spec in Hin as [Hin Hc]. congruence.
  - simpl. now rewrite A2, A3, A4, A5.
  - intros Hnil.
    assert (Hno : indexed_rows db other = []).
    { destruct (indexed_rows db other) as [|entry rest] eqn:E;
        [reflexivity|].
      assert (Hin : entry ∈ indexed_rows db other)
        by (rewrite E; apply list_elem_of_here).
      apply indexed_rows_spec in Hin as [Hi Hc].
      assert (Hrow : entry.2 ∈ item_rows db other).
      { unfold item_rows. apply list_elem_of_filter. split; [exact Hc|].
        now apply list_elem_of_lookup_2 with entry.1. }
      rewrite Hnil in Hrow. now apply elem_of_nil in Hrow. }
    rewrite Hno. simpl. now apply filter_keeps_all.
Qed.

Lemma merge_spends_other_cart_witness :
  item_rows (merge_with 1 3 two_carts) 2 = item_rows two_carts 2
  /\ cartitem_table (merge_with 1 4 two_carts) = cartitem_table two_carts.
Proof.
  split.
  - apply (proj1 (proj2 (proj2 (merge_spends_other_cart 1 3 two_carts))));
      discriminate.
  - apply (proj2 (proj2 (proj2 (proj2
             (merge_spends_other_cart 1 4 two_carts))))).
    reflexivity.
Defined.
End Merge.
